(** * haystack/core/type_utils.py — runtime type-compatibility checker

    A shallow embedding of [_types_are_compatible],
    [_strict_types_are_compatible], [_relaxed_types_are_compatible],
    [_relaxed_check_union_compatibility] and [_type_name], together with
    the part of the Python host the functions call ([==], [is], [issubclass],
    [typing.get_origin], [typing.get_args]). *)

From Stdlib Require Import List String Ascii ZArith Bool Arith Lia Permutation.
From Stdlib Require Import DecimalString.
Import ListNotations.
Local Open Scope string_scope.
Local Open Scope list_scope.
Local Open Scope nat_scope.
Set Warnings "-register-all".

(** ** The objects the functions receive

    Python is dynamically typed: the functions are called on type objects and,
    when they recurse through the arguments of a [Literal], on the constants
    themselves.  One universe holds both. *)

Inductive pyobj : Type :=
| PAny                                          (* typing.Any *)
| PClass (c : string)                           (* a plain class: int, str, NoneType, list *)
| PUnion (args : list pyobj)                    (* typing.Union[...] *)
| PLiteral (args : list pyobj)                  (* typing.Literal[...] *)
| PGeneric (o : string) (args : list pyobj)     (* an alias of class o: List (no args), List[int] *)
| PStr (s : string)                             (* a str constant *)
| PInt (z : Z).                                 (* an int constant *)

(** What [typing.get_origin] returns when it is not [None]. *)
Inductive origin : Type :=
| OUnion
| OLiteral
| OClass (c : string).

Definition get_origin (tp : pyobj) : option origin :=
  match tp with
  | PUnion _ => Some OUnion
  | PLiteral _ => Some OLiteral
  | PGeneric o _ => Some (OClass o)
  | _ => None
  end.

Definition get_args (tp : pyobj) : list pyobj :=
  match tp with
  | PUnion args => args
  | PLiteral args => args
  | PGeneric _ args => args
  | _ => []
  end.

(** [x is Any] *)
Definition is_Any (x : pyobj) : bool :=
  match x with PAny => true | _ => false end.

(** [o is Union], [o is Literal] on the result of [get_origin] *)
Definition is_Union (o : option origin) : bool :=
  match o with Some OUnion => true | _ => false end.

Definition is_Literal (o : option origin) : bool :=
  match o with Some OLiteral => true | _ => false end.

(** Truth value of an origin: [None] is falsy, every origin object truthy. *)
Definition truthy (o : option origin) : bool :=
  match o with Some _ => true | None => false end.

Definition origin_eqb (a b : origin) : bool :=
  match a, b with
  | OUnion, OUnion => true
  | OLiteral, OLiteral => true
  | OClass c, OClass d => String.eqb c d
  | _, _ => false
  end.

(** [a == b] on the results of [get_origin] *)
Definition origin_eq (a b : option origin) : bool :=
  match a, b with
  | Some x, Some y => origin_eqb x y
  | None, None => true
  | _, _ => false
  end.

(** Python's [==] on these objects.  Classes and [Any] compare by identity,
    constants by value, an alias by origin and argument tuple; [Union] and
    [Literal] compare the SETS of their arguments (typing's [__eq__]). *)
Fixpoint py_eq (x y : pyobj) {struct x} : bool :=
  match x, y with
  | PAny, PAny => true
  | PClass c, PClass d => String.eqb c d
  | PStr s, PStr t => String.eqb s t
  | PInt n, PInt m => Z.eqb n m
  | PGeneric o xs, PGeneric p ys =>
      String.eqb o p &&
      (fix tuple_eq (xs ys : list pyobj) {struct xs} : bool :=
         match xs, ys with
         | [], [] => true
         | a :: xs', b :: ys' => py_eq a b && tuple_eq xs' ys'
         | _, _ => false
         end) xs ys
  | PUnion xs, PUnion ys =>
      forallb (fun a => existsb (fun b => py_eq a b) ys) xs &&
      forallb (fun b => existsb (fun a => py_eq a b) xs) ys
  | PLiteral xs, PLiteral ys =>
      forallb (fun a => existsb (fun b => py_eq a b) ys) xs &&
      forallb (fun b => existsb (fun a => py_eq a b) xs) ys
  | _, _ => false
  end.

(** Outcome of a host call that may raise [TypeError]. *)
Inductive outcome (A : Type) : Type :=
| Returns (a : A)
| TypeError.
Arguments Returns {A} a.
Arguments TypeError {A}.

Section Checker.

(** The host's class hierarchy: [subclass c d] when class [c] derives from
    class [d] (or is [d]). *)
Variable subclass : string -> string -> bool.

(** [issubclass(cls, classinfo)]: answers on two classes and raises
    [TypeError] on everything else ("typing classes can't be used with
    issubclass"): on [Any], on a [Union], a [Literal] or an alias, and on a
    constant.  The host raises on a [Union], a [Literal] or a constant as
    first argument and on a [Literal], a constant or an alias with arguments
    as second; on an alias without arguments, and in later versions on a
    class against a [Union], it answers.  What is proved of a refusal below
    is stated where the host raises as well. *)
Definition issubclass (cls classinfo : pyobj) : outcome bool :=
  match cls, classinfo with
  | PClass c, PClass d => Returns (subclass c d)
  | _, _ => TypeError
  end.

(** [try: if issubclass(a, b): return True / except TypeError: pass] —
    [true] when the block returns, [false] when control falls through. *)
Definition try_issubclass (a b : pyobj) : bool :=
  match issubclass a b with
  | Returns true => true
  | Returns false => false
  | TypeError => false
  end.

(** [all(f(s, r) for s, r in zip(xs, ys))] *)
Definition all_zip (f : pyobj -> pyobj -> bool) (xs ys : list pyobj) : bool :=
  forallb (fun p => f (fst p) (snd p)) (combine xs ys).

(** ** [_strict_types_are_compatible]

    Every recursive call is on an argument of the receiver, so the receiver
    is the structural argument; its argument list is taken by a [match] where
    the recursion needs it. *)
Fixpoint _strict_types_are_compatible (sender receiver : pyobj) {struct receiver} : bool :=
  if py_eq sender receiver || is_Any receiver then true
  else if is_Any sender then false
  else if try_issubclass sender receiver then true
  else
    let sender_origin := get_origin sender in
    let receiver_origin := get_origin receiver in
    if negb (is_Union sender_origin) && is_Union receiver_origin then
      match receiver with
      | PUnion args =>
          existsb (fun union_arg => _strict_types_are_compatible sender union_arg) args
      | _ => false
      end
    else if negb (truthy sender_origin && truthy receiver_origin
                  && origin_eq sender_origin receiver_origin) then false
    else
      let sender_args := get_args sender in
      if List.length (get_args receiver) <? List.length sender_args then false
      else
        match receiver with
        | PUnion receiver_args | PLiteral receiver_args | PGeneric _ receiver_args =>
            (fix zipped (ss rs : list pyobj) {struct rs} : bool :=
               match ss, rs with
               | s :: ss', r :: rs' => _strict_types_are_compatible s r && zipped ss' rs'
               | _, _ => true
               end) sender_args receiver_args
        | _ => true
        end.

(** ** [_relaxed_types_are_compatible]

    The calls are on (an argument of the sender, any receiver) or on (the same
    sender, an argument of the receiver): recursion on the sender, and inside
    it on the receiver.  [_relaxed_check_union_compatibility] is unfolded in
    place here and stated as a function of its own below. *)
Fixpoint _relaxed_types_are_compatible (sender : pyobj) {struct sender} : pyobj -> bool :=
  fix same_sender (receiver : pyobj) {struct receiver} : bool :=
    if is_Any sender || is_Any receiver || py_eq sender receiver then true
    else if try_issubclass sender receiver then true
    else if try_issubclass receiver sender then true
    else
      let sender_origin := get_origin sender in
      let receiver_origin := get_origin receiver in
      if is_Union sender_origin || is_Union receiver_origin then
        if is_Union sender_origin && negb (is_Union receiver_origin) then
          match sender with
          | PUnion args =>
              existsb (fun union_arg => _relaxed_types_are_compatible union_arg receiver) args
          | _ => false
          end
        else if is_Union receiver_origin && negb (is_Union sender_origin) then
          match receiver with
          | PUnion args => existsb (fun union_arg => same_sender union_arg) args
          | _ => false
          end
        else
          match sender with
          | PUnion args =>
              existsb (fun arg1 =>
                 existsb (fun arg2 => _relaxed_types_are_compatible arg1 arg2)
                         (get_args receiver)) args
          | _ => false
          end
      else if negb (truthy sender_origin && truthy sender_origin
                    && origin_eq sender_origin receiver_origin) then false
      else
        let sender_args := get_args sender in
        let receiver_args := get_args receiver in
        if is_Literal sender_origin && is_Literal receiver_origin then
          existsb (fun sender_arg =>
             existsb (fun receiver_arg => py_eq sender_arg receiver_arg) receiver_args)
            sender_args
        else if negb (List.length sender_args =? List.length receiver_args) then false
        else
          match sender with
          | PUnion args | PLiteral args | PGeneric _ args =>
              (fix zipped (ss rs : list pyobj) {struct ss} : bool :=
                 match ss, rs with
                 | s_arg :: ss', r_arg :: rs' =>
                     _relaxed_types_are_compatible s_arg r_arg && zipped ss' rs'
                 | _, _ => true
                 end) args receiver_args
          | _ => true
          end.

(** [_relaxed_check_union_compatibility(sender, receiver, sender_origin,
    receiver_origin)] *)
Definition _relaxed_check_union_compatibility
    (sender receiver : pyobj) (sender_origin receiver_origin : option origin) : bool :=
  if is_Union sender_origin && negb (is_Union receiver_origin) then
    existsb (fun union_arg => _relaxed_types_are_compatible union_arg receiver)
            (get_args sender)
  else if is_Union receiver_origin && negb (is_Union sender_origin) then
    existsb (fun union_arg => _relaxed_types_are_compatible sender union_arg)
            (get_args receiver)
  else
    existsb (fun arg1 =>
       existsb (fun arg2 => _relaxed_types_are_compatible arg1 arg2) (get_args receiver))
      (get_args sender).

(** [_types_are_compatible(sender, receiver, type_validation)] *)
Definition _types_are_compatible (sender receiver : pyobj) (type_validation : string) : bool :=
  if String.eqb type_validation "strict" then
    _strict_types_are_compatible sender receiver
  else if String.eqb type_validation "relaxed" then
    _relaxed_types_are_compatible sender receiver
  else true.

End Checker.

(** ** A concrete host: the builtin classes

    Every class derives from itself and from [object]; [bool] derives from
    [int]. *)
Definition builtin_subclass (c d : string) : bool :=
  String.eqb c d || String.eqb d "object" || (String.eqb c "bool" && String.eqb d "int").

Definition int_ := PClass "int".
Definition str_ := PClass "str".
Definition float_ := PClass "float".
Definition bool_ := PClass "bool".
Definition NoneType := PClass "NoneType".
Definition Mapping (args : list pyobj) := PGeneric "Mapping" args.
Definition List_ (args : list pyobj) := PGeneric "list" args.

Definition strict := _strict_types_are_compatible builtin_subclass.
Definition relaxed := _relaxed_types_are_compatible builtin_subclass.


(** ** [_type_name] *)

(** [type(None)] *)
Definition is_NoneType (x : pyobj) : bool :=
  match x with PClass c => String.eqb c "NoneType" | _ => false end.

(** [isinstance(x, str)] *)
Definition is_str (x : pyobj) : bool :=
  match x with PStr _ => true | _ => false end.

(** [str(z)] of an int *)
Definition str_of_int (z : Z) : string := NilEmpty.string_of_int (Z.to_int z).

(** [getattr(type_, "__name__", str(type_))]: a class and an alias answer
    with a name, a constant has no [__name__] and is printed.  An alias
    answers here with the name of its origin, as [list[int]] does; an alias
    of [typing] answers with its own name ([List] for origin [list]), which
    the objects of this file do not carry. *)
Definition py_name (x : pyobj) : string :=
  match x with
  | PAny => "Any"
  | PClass c => c
  | PUnion _ => "Union"
  | PLiteral _ => "Literal"
  | PGeneric o _ => o
  | PStr s => s
  | PInt z => str_of_int z
  end.

(** [c in name] for a one-character string [c] *)
Fixpoint contains (c : ascii) (name : string) : bool :=
  match name with
  | EmptyString => false
  | String d rest => Ascii.eqb d c || contains c rest
  end.

(** [name.split(c)[0]] *)
Fixpoint split_head (c : ascii) (name : string) : string :=
  match name with
  | EmptyString => EmptyString
  | String d rest => if Ascii.eqb d c then EmptyString else String d (split_head c rest)
  end.

(** lines 165-175: the name before the arguments are appended *)
Definition base_name (type_ : pyobj) : string :=
  let name := py_name type_ in
  let name :=
    if String.prefix "typing." name
    then String.substring 7 (String.length name - 7) name else name in
  let name := if contains "["%char name then split_head "["%char name else name in
  let args := get_args type_ in
  if String.eqb name "Union" && existsb is_NoneType args && (List.length args =? 2)
  then "Optional" else name.

(** [f"{name}[{args}]"] when there are arguments, [f"{name}"] when not *)
Definition with_args (name : string) (args : list pyobj) (rendered : list string) : string :=
  match args with
  | [] => name
  | _ :: _ => name ++ "[" ++ String.concat ", " rendered ++ "]"
  end.

Fixpoint _type_name (type_ : pyobj) : string :=
  match type_ with
  | PStr s => "'" ++ s ++ "'"
  | PUnion args | PLiteral args | PGeneric _ args =>
      with_args (base_name type_) args
        ((fix rendered (l : list pyobj) : list string :=
            match l with
            | [] => []
            | a :: l' => if is_NoneType a then rendered l' else _type_name a :: rendered l'
            end) args)
  | _ => base_name type_
  end.

(** ** The checkers with the exceptions written out

    The same functions where a host call that raises makes the caller raise,
    unless a [try ... except TypeError: pass] stands around it.  The oracle
    is any function at all: nothing is assumed on when it raises. *)

Definition bind {A B : Type} (m : outcome A) (k : A -> outcome B) : outcome B :=
  match m with
  | Returns a => k a
  | TypeError => TypeError
  end.

Notation "x <- m ;; k" := (bind m (fun x => k))
  (at level 61, m at next level, right associativity).

(** [try: if m: return True / except TypeError: pass] — [true] when the
    block returned. *)
Definition try_if_pass (m : outcome bool) : outcome bool :=
  match m with
  | Returns b => Returns b
  | TypeError => Returns false
  end.

Section Raising.

Variable oracle : pyobj -> pyobj -> outcome bool.

(** [any(f(a) for a in l)]: stops at the first true, raises where [f] does *)
Definition any_raising (f : pyobj -> outcome bool) : list pyobj -> outcome bool :=
  fix go (l : list pyobj) : outcome bool :=
    match l with
    | [] => Returns false
    | a :: l' => b <- f a ;; if b then Returns true else go l'
    end.

Fixpoint strict_raising (sender receiver : pyobj) {struct receiver} : outcome bool :=
  if py_eq sender receiver || is_Any receiver then Returns true
  else if is_Any sender then Returns false
  else
    returned <- try_if_pass (oracle sender receiver) ;;
    if returned then Returns true
    else
      let sender_origin := get_origin sender in
      let receiver_origin := get_origin receiver in
      if negb (is_Union sender_origin) && is_Union receiver_origin then
        match receiver with
        | PUnion args => any_raising (fun union_arg => strict_raising sender union_arg) args
        | _ => Returns false
        end
      else if negb (truthy sender_origin && truthy receiver_origin
                    && origin_eq sender_origin receiver_origin) then Returns false
      else
        let sender_args := get_args sender in
        if List.length (get_args receiver) <? List.length sender_args then Returns false
        else
          match receiver with
          | PUnion receiver_args | PLiteral receiver_args | PGeneric _ receiver_args =>
              (fix zipped (ss rs : list pyobj) {struct rs} : outcome bool :=
                 match ss, rs with
                 | s :: ss', r :: rs' =>
                     b <- strict_raising s r ;; if b then zipped ss' rs' else Returns false
                 | _, _ => Returns true
                 end) sender_args receiver_args
          | _ => Returns true
          end.

Fixpoint relaxed_raising (sender : pyobj) {struct sender} : pyobj -> outcome bool :=
  fix same_sender (receiver : pyobj) {struct receiver} : outcome bool :=
    if is_Any sender || is_Any receiver || py_eq sender receiver then Returns true
    else
      returned <- try_if_pass (oracle sender receiver) ;;
      if returned then Returns true
      else
        returned <- try_if_pass (oracle receiver sender) ;;
        if returned then Returns true
        else
          let sender_origin := get_origin sender in
          let receiver_origin := get_origin receiver in
          if is_Union sender_origin || is_Union receiver_origin then
            if is_Union sender_origin && negb (is_Union receiver_origin) then
              match sender with
              | PUnion args =>
                  any_raising (fun union_arg => relaxed_raising union_arg receiver) args
              | _ => Returns false
              end
            else if is_Union receiver_origin && negb (is_Union sender_origin) then
              match receiver with
              | PUnion args => any_raising (fun union_arg => same_sender union_arg) args
              | _ => Returns false
              end
            else
              match sender with
              | PUnion args =>
                  any_raising (fun arg1 =>
                     any_raising (fun arg2 => relaxed_raising arg1 arg2) (get_args receiver))
                    args
              | _ => Returns false
              end
          else if negb (truthy sender_origin && truthy sender_origin
                        && origin_eq sender_origin receiver_origin) then Returns false
          else
            let sender_args := get_args sender in
            let receiver_args := get_args receiver in
            if is_Literal sender_origin && is_Literal receiver_origin then
              Returns (existsb (fun sender_arg =>
                 existsb (fun receiver_arg => py_eq sender_arg receiver_arg) receiver_args)
                sender_args)
            else if negb (List.length sender_args =? List.length receiver_args)
            then Returns false
            else
              match sender with
              | PUnion args | PLiteral args | PGeneric _ args =>
                  (fix zipped (ss rs : list pyobj) {struct ss} : outcome bool :=
                     match ss, rs with
                     | s_arg :: ss', r_arg :: rs' =>
                         b <- relaxed_raising s_arg r_arg ;;
                         if b then zipped ss' rs' else Returns false
                     | _, _ => Returns true
                     end) args receiver_args
              | _ => Returns true
              end.

Definition types_are_compatible_raising
    (sender receiver : pyobj) (type_validation : string) : outcome bool :=
  if String.eqb type_validation "strict" then strict_raising sender receiver
  else if String.eqb type_validation "relaxed" then relaxed_raising sender receiver
  else Returns true.

End Raising.

(** [all(f(s, r) for s, r in zip(xs, ys))] where [f] may raise *)
Definition all_zip_raising (f : pyobj -> pyobj -> outcome bool)
    : list pyobj -> list pyobj -> outcome bool :=
  fix go (xs ys : list pyobj) : outcome bool :=
    match xs, ys with
    | a :: xs', b :: ys' => r <- f a b ;; if r then go xs' ys' else Returns false
    | _, _ => Returns true
    end.

(** The oracle with [except TypeError] around it: where it raises, the
    answer is "not a subclass". *)
Definition fail_closed (oracle : pyobj -> pyobj -> outcome bool)
    (a b : pyobj) : outcome bool :=
  match oracle a b with
  | Returns x => Returns x
  | TypeError => Returns false
  end.

(** An alias without arguments, [typing.List]. *)
Definition bare_alias (x : pyobj) : bool :=
  match x with PGeneric _ [] => true | _ => false end.

(** The call comes back with a boolean. *)
Definition returns (m : outcome bool) : Prop := exists b, m = Returns b.

(** A plain class, the only thing [issubclass] takes. *)
Definition is_class (x : pyobj) : bool :=
  match x with PClass _ => true | _ => false end.

(** ** Descriptors as [typing] builds them, and reordered unions *)

(** Every member of [xs] has an [==] member in [ys]. *)
Definition covered (xs ys : list pyobj) : Prop :=
  forall a, In a xs -> exists b, In b ys /\ py_eq a b = true.

(** No two members of the list are [==]. *)
Fixpoint distinct (l : list pyobj) : bool :=
  match l with
  | [] => true
  | a :: l' => negb (existsb (fun b => py_eq a b) l') && distinct l'
  end.

(** [typing] removes the duplicates of a [Union] and of a [Literal] when it
    builds them, a [Union] keeps two members at least and a [Literal] one. *)
Fixpoint well_formed (x : pyobj) : bool :=
  match x with
  | PUnion args => (2 <=? List.length args) && distinct args && forallb well_formed args
  | PLiteral args => (1 <=? List.length args) && distinct args && forallb well_formed args
  | PGeneric _ args => forallb well_formed args
  | _ => true
  end.

(** [reordered x y]: [y] is [x] with the alternatives of any of its unions,
    at any depth, put in another order. *)
Inductive reordered : pyobj -> pyobj -> Prop :=
| reordered_same x : reordered x x
| reordered_union xs ys zs :
    Forall2 reordered xs ys -> Permutation ys zs -> reordered (PUnion xs) (PUnion zs)
| reordered_literal xs ys :
    Forall2 reordered xs ys -> reordered (PLiteral xs) (PLiteral ys)
| reordered_generic o xs ys :
    Forall2 reordered xs ys -> reordered (PGeneric o xs) (PGeneric o ys).

(** No [Union] anywhere in the object. *)
Fixpoint union_free (x : pyobj) : bool :=
  match x with
  | PUnion _ => false
  | PLiteral args | PGeneric _ args => forallb union_free args
  | _ => true
  end.

(** Number of constructors, the measure the inductions go by. *)
Fixpoint size (x : pyobj) : nat :=
  match x with
  | PUnion args | PLiteral args | PGeneric _ args =>
      S (fold_right (fun a n => size a + n) 0 args)
  | _ => 1
  end.

(** A constant, the only thing a [Literal] holds. *)
Definition is_constant (x : pyobj) : bool :=
  match x with PStr _ | PInt _ => true | _ => false end.

(** ** Induction over objects *)

Section Induction.

Variable P : pyobj -> Prop.
Hypothesis HAny : P PAny.
Hypothesis HClass : forall c, P (PClass c).
Hypothesis HUnion : forall args, Forall P args -> P (PUnion args).
Hypothesis HLiteral : forall args, Forall P args -> P (PLiteral args).
Hypothesis HGeneric : forall o args, Forall P args -> P (PGeneric o args).
Hypothesis HStr : forall s, P (PStr s).
Hypothesis HInt : forall z, P (PInt z).

Fixpoint pyobj_nested_ind (x : pyobj) : P x :=
  let all := fix all (l : list pyobj) : Forall P l :=
    match l with
    | [] => Forall_nil P
    | a :: l' => Forall_cons a (pyobj_nested_ind a) (all l')
    end in
  match x with
  | PAny => HAny
  | PClass c => HClass c
  | PUnion args => HUnion args (all args)
  | PLiteral args => HLiteral args (all args)
  | PGeneric o args => HGeneric o args (all args)
  | PStr s => HStr s
  | PInt z => HInt z
  end.

End Induction.

(** Induction on a reordering, through the lists of arguments. *)
Section ReorderedInduction.

Variable P : pyobj -> pyobj -> Prop.
Hypothesis Hsame : forall x, P x x.
Hypothesis Hunion : forall xs ys zs,
  Forall2 reordered xs ys -> Forall2 P xs ys -> Permutation ys zs ->
  P (PUnion xs) (PUnion zs).
Hypothesis Hliteral : forall xs ys,
  Forall2 reordered xs ys -> Forall2 P xs ys -> P (PLiteral xs) (PLiteral ys).
Hypothesis Hgeneric : forall o xs ys,
  Forall2 reordered xs ys -> Forall2 P xs ys -> P (PGeneric o xs) (PGeneric o ys).

Fixpoint reordered_nested_ind (x y : pyobj) (H : reordered x y) {struct H} : P x y :=
  let all := fix all (xs ys : list pyobj) (F : Forall2 reordered xs ys) {struct F}
      : Forall2 P xs ys :=
    match F in Forall2 _ xs ys return Forall2 P xs ys with
    | Forall2_nil _ => Forall2_nil P
    | Forall2_cons a b Hab F' =>
        Forall2_cons a b (reordered_nested_ind a b Hab) (all _ _ F')
    end in
  match H in reordered x y return P x y with
  | reordered_same x => Hsame x
  | reordered_union xs ys zs F Pm => Hunion xs ys zs F (all xs ys F) Pm
  | reordered_literal xs ys F => Hliteral xs ys F (all xs ys F)
  | reordered_generic o xs ys F => Hgeneric o xs ys F (all xs ys F)
  end.

End ReorderedInduction.

(** ** The equations of the checkers, in the shape of the source *)

Section Equations.

Variable subclass : string -> string -> bool.

Local Abbreviation strict_ := (_strict_types_are_compatible subclass).
Local Abbreviation relaxed_ := (_relaxed_types_are_compatible subclass).

Lemma all_zip_nil_r f xs : all_zip f xs [] = true.
Proof. destruct xs; reflexivity. Qed.

Lemma all_zip_cons f x xs y ys :
  all_zip f (x :: xs) (y :: ys) = f x y && all_zip f xs ys.
Proof. reflexivity. Qed.

Lemma strict_zipped (ss rs : list pyobj) :
  (fix zipped (ss rs : list pyobj) {struct rs} : bool :=
     match ss, rs with
     | s :: ss', r :: rs' => strict_ s r && zipped ss' rs'
     | _, _ => true
     end) ss rs = all_zip strict_ ss rs.
Proof.
  revert ss; induction rs as [|r rs IH]; intros [|s ss]; try reflexivity.
  rewrite all_zip_cons, <- IH. reflexivity.
Qed.

Lemma relaxed_zipped (ss rs : list pyobj) :
  (fix zipped (ss rs : list pyobj) {struct ss} : bool :=
     match ss, rs with
     | s_arg :: ss', r_arg :: rs' => relaxed_ s_arg r_arg && zipped ss' rs'
     | _, _ => true
     end) ss rs = all_zip relaxed_ ss rs.
Proof.
  revert rs; induction ss as [|s ss IH]; intros [|r rs]; try reflexivity.
  rewrite all_zip_cons, <- IH. reflexivity.
Qed.

(** Lines 50-78 of the source, one rule after the other. *)
Lemma strict_unfold (sender receiver : pyobj) :
  strict_ sender receiver =
  if py_eq sender receiver || is_Any receiver then true
  else if is_Any sender then false
  else if try_issubclass subclass sender receiver then true
  else if negb (is_Union (get_origin sender)) && is_Union (get_origin receiver) then
    existsb (fun union_arg => strict_ sender union_arg) (get_args receiver)
  else if negb (truthy (get_origin sender) && truthy (get_origin receiver)
                && origin_eq (get_origin sender) (get_origin receiver)) then false
  else if List.length (get_args receiver) <? List.length (get_args sender) then false
  else all_zip strict_ (get_args sender) (get_args receiver).
Proof.
  destruct receiver;
    cbn [_strict_types_are_compatible get_args get_origin is_Union is_Any truthy];
    rewrite ?strict_zipped, ?andb_false_r, ?andb_true_r, ?all_zip_nil_r;
    cbn [negb]; try reflexivity.
  all: repeat match goal with |- context [if ?b then _ else _] => destruct b end;
    reflexivity.
Qed.

(** Lines 93-132 of the source. *)
Lemma relaxed_unfold (sender receiver : pyobj) :
  relaxed_ sender receiver =
  if is_Any sender || is_Any receiver || py_eq sender receiver then true
  else if try_issubclass subclass sender receiver then true
  else if try_issubclass subclass receiver sender then true
  else if is_Union (get_origin sender) || is_Union (get_origin receiver) then
    _relaxed_check_union_compatibility subclass sender receiver
      (get_origin sender) (get_origin receiver)
  else if negb (truthy (get_origin sender) && truthy (get_origin sender)
                && origin_eq (get_origin sender) (get_origin receiver)) then false
  else if is_Literal (get_origin sender) && is_Literal (get_origin receiver) then
    existsb (fun sender_arg =>
       existsb (fun receiver_arg => py_eq sender_arg receiver_arg) (get_args receiver))
      (get_args sender)
  else if negb (List.length (get_args sender) =? List.length (get_args receiver)) then false
  else all_zip relaxed_ (get_args sender) (get_args receiver).
Proof.
  unfold _relaxed_check_union_compatibility.
  destruct sender, receiver;
    cbn [_relaxed_types_are_compatible get_args get_origin is_Union is_Literal
         is_Any truthy negb andb orb];
    rewrite ?relaxed_zipped; try reflexivity.
Qed.

End Equations.

(** ** The measure of the inductions *)

Lemma size_arg_lt (a : pyobj) (args : list pyobj) :
  In a args -> size a <= fold_right (fun a n => size a + n) 0 args.
Proof.
  induction args as [|b args IH]; simpl; [tauto|].
  intros [->|H]; [lia|]. specialize (IH H). lia.
Qed.

Lemma size_get_args (a x : pyobj) : In a (get_args x) -> size a < size x.
Proof.
  destruct x; simpl; try tauto; intros H; apply size_arg_lt in H; lia.
Qed.

(** Induction on the sum of the sizes of two objects. *)
Lemma pair_size_ind (Q : pyobj -> pyobj -> Prop) :
  (forall s r,
      (forall s' r', size s' + size r' < size s + size r -> Q s' r') -> Q s r) ->
  forall s r, Q s r.
Proof.
  intros step s r.
  remember (size s + size r) as n eqn:E.
  revert s r E. induction n as [n IH] using lt_wf_ind.
  intros s r ->. apply step. intros s' r' Hlt. eapply IH; [exact Hlt|reflexivity].
Qed.

(** ** Boolean quantifiers over lists *)

Lemma existsb_ext_in {A} (f g : A -> bool) (l : list A) :
  (forall a, In a l -> f a = g a) -> existsb f l = existsb g l.
Proof.
  induction l as [|a l IH]; simpl; intros H; [reflexivity|].
  rewrite (H a), IH by auto. reflexivity.
Qed.

Lemma forallb_ext_in {A} (f g : A -> bool) (l : list A) :
  (forall a, In a l -> f a = g a) -> forallb f l = forallb g l.
Proof.
  induction l as [|a l IH]; simpl; intros H; [reflexivity|].
  rewrite (H a), IH by auto. reflexivity.
Qed.

Lemma existsb_swap {A B} (f : A -> B -> bool) (xs : list A) (ys : list B) :
  existsb (fun a => existsb (fun b => f a b) ys) xs =
  existsb (fun b => existsb (fun a => f a b) xs) ys.
Proof.
  apply eq_true_iff_eq. rewrite !existsb_exists. split.
  - intros (a & Ha & H). apply existsb_exists in H as (b & Hb & H).
    exists b. split; [assumption|]. apply existsb_exists. eauto.
  - intros (b & Hb & H). apply existsb_exists in H as (a & Ha & H).
    exists a. split; [assumption|]. apply existsb_exists. eauto.
Qed.

Lemma all_zip_true_iff f xs ys :
  all_zip f xs ys = true <->
  forall p, In p (combine xs ys) -> f (fst p) (snd p) = true.
Proof. unfold all_zip. apply forallb_forall. Qed.

Lemma all_zip_flip f g xs ys :
  (forall a b, In a xs -> In b ys -> f a b = g b a) ->
  all_zip f xs ys = all_zip g ys xs.
Proof.
  revert ys; induction xs as [|x xs IH]; intros [|y ys] H; try reflexivity.
  rewrite !all_zip_cons, (H x y), IH; simpl; auto.
  intros; apply H; simpl; auto.
Qed.

(** ** Facts on [==] *)

Lemma py_eq_tuple_unfold o xs p ys :
  py_eq (PGeneric o xs) (PGeneric p ys) =
  String.eqb o p && ((List.length xs =? List.length ys) && all_zip py_eq xs ys).
Proof.
  cbn [py_eq]. f_equal.
  revert ys; induction xs as [|x xs IH]; intros [|y ys]; try reflexivity.
  rewrite IH, all_zip_cons. cbn [List.length Nat.eqb].
  destruct (py_eq x y), (List.length xs =? List.length ys); reflexivity.
Qed.

Lemma py_eq_union_unfold xs ys :
  py_eq (PUnion xs) (PUnion ys) =
  forallb (fun a => existsb (fun b => py_eq a b) ys) xs &&
  forallb (fun b => existsb (fun a => py_eq a b) xs) ys.
Proof. reflexivity. Qed.

Lemma py_eq_literal_unfold xs ys :
  py_eq (PLiteral xs) (PLiteral ys) =
  forallb (fun a => existsb (fun b => py_eq a b) ys) xs &&
  forallb (fun b => existsb (fun a => py_eq a b) xs) ys.
Proof. reflexivity. Qed.

Lemma py_eq_sym (x : pyobj) : forall y, py_eq x y = py_eq y x.
Proof.
  induction x as [ | c | xs IH | xs IH | o xs IH | s | z ] using pyobj_nested_ind;
    intros [ | d | ys | ys | p ys | t | w ]; try reflexivity.
  - apply String.eqb_sym.
  - rewrite !py_eq_union_unfold, andb_comm. rewrite Forall_forall in IH. f_equal.
    + apply forallb_ext_in. intros b _. apply existsb_ext_in. intros a Ha. now apply IH.
    + apply forallb_ext_in. intros a Ha. apply existsb_ext_in. intros b _. now apply IH.
  - rewrite !py_eq_literal_unfold, andb_comm. rewrite Forall_forall in IH. f_equal.
    + apply forallb_ext_in. intros b _. apply existsb_ext_in. intros a Ha. now apply IH.
    + apply forallb_ext_in. intros a Ha. apply existsb_ext_in. intros b _. now apply IH.
  - rewrite !py_eq_tuple_unfold, String.eqb_sym, Nat.eqb_sym. do 2 f_equal.
    rewrite Forall_forall in IH. apply all_zip_flip. intros a b Ha _. now apply IH.
  - apply String.eqb_sym.
  - apply Z.eqb_sym.
Qed.

Lemma py_eq_refl (x : pyobj) : py_eq x x = true.
Proof.
  induction x as [ | c | xs IH | xs IH | o xs IH | s | z ] using pyobj_nested_ind.
  - reflexivity.
  - apply String.eqb_refl.
  - rewrite py_eq_union_unfold. rewrite Forall_forall in IH.
    assert (H : forallb (fun a => existsb (fun b => py_eq a b) xs) xs = true).
    { apply forallb_forall. intros a Ha. apply existsb_exists. exists a. auto. }
    rewrite H. cbn [andb]. apply forallb_forall. intros a Ha.
    apply existsb_exists. exists a. auto.
  - rewrite py_eq_literal_unfold. rewrite Forall_forall in IH.
    assert (H : forallb (fun a => existsb (fun b => py_eq a b) xs) xs = true).
    { apply forallb_forall. intros a Ha. apply existsb_exists. exists a. auto. }
    rewrite H. cbn [andb]. apply forallb_forall. intros a Ha.
    apply existsb_exists. exists a. auto.
  - rewrite py_eq_tuple_unfold, String.eqb_refl, Nat.eqb_refl. cbn [andb].
    induction IH as [|a xs Ha _ IHxs]; [reflexivity|].
    rewrite all_zip_cons, Ha, IHxs. reflexivity.
  - apply String.eqb_refl.
  - apply Z.eqb_refl.
Qed.

Lemma py_eq_Any_l (y : pyobj) : py_eq PAny y = is_Any y.
Proof. destruct y; reflexivity. Qed.

Lemma is_Any_true (x : pyobj) : is_Any x = true <-> x = PAny.
Proof. destruct x; simpl; split; congruence. Qed.

Lemma same_set_iff (xs ys : list pyobj) :
  forallb (fun a => existsb (fun b => py_eq a b) ys) xs &&
  forallb (fun b => existsb (fun a => py_eq a b) xs) ys = true <->
  covered xs ys /\ covered ys xs.
Proof.
  unfold covered. rewrite andb_true_iff, !forallb_forall. split.
  - intros [H1 H2]. split; intros a Ha.
    + apply H1, existsb_exists in Ha. exact Ha.
    + apply H2, existsb_exists in Ha as (b & Hb & E). exists b.
      rewrite py_eq_sym. auto.
  - intros [H1 H2]. split; intros a Ha; apply existsb_exists.
    + now apply H1.
    + destruct (H2 a Ha) as (b & Hb & E). exists b. rewrite py_eq_sym. auto.
Qed.

Lemma py_eq_trans (x : pyobj) :
  forall y z, py_eq x y = true -> py_eq y z = true -> py_eq x z = true.
Proof.
  assert (sets : forall xs, Forall (fun a => forall y z,
              py_eq a y = true -> py_eq y z = true -> py_eq a z = true) xs ->
            forall ys zs, covered xs ys /\ covered ys xs ->
              covered ys zs /\ covered zs ys -> covered xs zs /\ covered zs xs).
  { intros xs IH ys zs [A1 A2] [B1 B2]. rewrite Forall_forall in IH. split.
    - intros a Ha. destruct (A1 a Ha) as (b & Hb & E1).
      destruct (B1 b Hb) as (c & Hc & E2). exists c. eauto.
    - intros c Hc. destruct (B2 c Hc) as (b & Hb & E2).
      destruct (A2 b Hb) as (a & Ha & E1). exists a. split; [assumption|].
      rewrite py_eq_sym. apply (IH a Ha b c); now rewrite py_eq_sym. }
  induction x as [ | c | xs IH | xs IH | o xs IH | s | w ] using pyobj_nested_ind;
    intros [ | d | ys | ys | p ys | t | v ] [ | e | zs | zs | q zs | u | n ];
    try (cbn [py_eq]; congruence).
  - cbn [py_eq]. rewrite !String.eqb_eq. congruence.
  - rewrite !py_eq_union_unfold, !same_set_iff. now apply sets.
  - rewrite !py_eq_literal_unfold, !same_set_iff. now apply sets.
  - rewrite !py_eq_tuple_unfold, !andb_true_iff, !String.eqb_eq, !Nat.eqb_eq.
    intros [-> [L1 Z1]] [-> [L2 Z2]]. repeat split; [congruence|].
    revert ys zs L1 L2 Z1 Z2.
    induction IH as [|a xs Ha _ IHxs]; intros [|b ys] [|c zs];
      cbn [List.length]; intros L1 L2; try discriminate; try reflexivity.
    rewrite !all_zip_cons, !andb_true_iff. intros [E1 Z1] [E2 Z2].
    split; [eauto|]. apply (IHxs ys zs); auto.
  - cbn [py_eq]. rewrite !String.eqb_eq. congruence.
  - cbn [py_eq]. rewrite !Z.eqb_eq. congruence.
Qed.

(** Duplicate-free members that all have an equal in [ys]: [ys] is at least
    as long. *)
Lemma distinct_covered_length (xs : list pyobj) :
  forall ys, distinct xs = true -> covered xs ys -> List.length xs <= List.length ys.
Proof.
  induction xs as [|x xs IH]; intros ys D C; [simpl; lia|].
  cbn [distinct] in D. apply andb_prop in D as [Dx D].
  destruct (C x (or_introl eq_refl)) as (y & Hy & E).
  destruct (in_split _ _ Hy) as (l1 & l2 & ->).
  rewrite length_app. cbn [List.length].
  enough (List.length xs <= List.length (l1 ++ l2)) by (rewrite length_app in *; lia).
  apply IH; [assumption|]. intros a Ha.
  destruct (C a (or_intror Ha)) as (b & Hb & Eb).
  apply in_app_or in Hb. destruct Hb as [Hb|[<-|Hb]].
  - exists b. split; [apply in_or_app; auto|assumption].
  - exfalso. apply negb_true_iff in Dx.
    assert (X : existsb (fun b => py_eq x b) xs = true).
    { apply existsb_exists. exists a. split; [assumption|].
      apply (py_eq_trans x y a); [assumption|]. now rewrite py_eq_sym. }
    congruence.
  - exists b. split; [apply in_or_app; auto|assumption].
Qed.

(** Two equal well-formed objects have as many arguments. *)
Lemma py_eq_args_length (x y : pyobj) :
  well_formed x = true -> py_eq x y = true ->
  List.length (get_args x) <= List.length (get_args y).
Proof.
  destruct x, y; try (cbn [py_eq]; congruence); cbn [get_args List.length]; try lia.
  - cbn [well_formed]. rewrite !andb_true_iff, py_eq_union_unfold, same_set_iff.
    intros [[_ D] _] [C _]. now apply distinct_covered_length.
  - cbn [well_formed]. rewrite !andb_true_iff, py_eq_literal_unfold, same_set_iff.
    intros [[_ D] _] [C _]. now apply distinct_covered_length.
  - rewrite py_eq_tuple_unfold, !andb_true_iff, Nat.eqb_eq. intros _ [_ [L _]]. lia.
Qed.

Lemma py_eq_constant (a b : pyobj) :
  is_constant a = true -> py_eq a b = true -> a = b.
Proof.
  destruct a, b; cbn [is_constant py_eq]; try congruence; intros _ E.
  - apply String.eqb_eq in E. congruence.
  - apply Z.eqb_eq in E. congruence.
Qed.

Lemma origin_eqb_refl (o : origin) : origin_eqb o o = true.
Proof. destruct o; cbn; auto using String.eqb_refl. Qed.

(** ** The strict checker *)

Section Strict.

Variable subclass : string -> string -> bool.

Local Abbreviation strict_ := (_strict_types_are_compatible subclass).
Local Abbreviation relaxed_ := (_relaxed_types_are_compatible subclass).

(** [issubclass] raises, and the [try] passes, as soon as one side carries
    an origin. *)
Lemma try_issubclass_origin_l (s r : pyobj) :
  truthy (get_origin s) = true -> try_issubclass subclass s r = false.
Proof. destruct s; cbn; congruence. Qed.

Lemma try_issubclass_origin_r (s r : pyobj) :
  truthy (get_origin r) = true -> try_issubclass subclass s r = false.
Proof. destruct s, r; cbn; congruence. Qed.

Lemma strict_refl (x : pyobj) : strict_ x x = true.
Proof. rewrite strict_unfold, py_eq_refl. reflexivity. Qed.

(** Rule 7 alone: what the check answers once two different objects carry
    the same origin. *)
Lemma strict_same_origin (sender receiver : pyobj) (o : origin) :
  get_origin sender = Some o -> get_origin receiver = Some o ->
  py_eq sender receiver = false ->
  strict_ sender receiver =
  (List.length (get_args sender) <=? List.length (get_args receiver))
  && all_zip strict_ (get_args sender) (get_args receiver).
Proof.
  intros Hs Hr E. rewrite strict_unfold, E, Hs, Hr.
  rewrite (try_issubclass_origin_l sender receiver) by now rewrite Hs.
  replace (is_Any receiver) with false by now destruct receiver.
  replace (is_Any sender) with false by now destruct sender.
  cbn [orb truthy origin_eq andb]. rewrite origin_eqb_refl. cbn [negb].
  replace (negb (is_Union (Some o)) && is_Union (Some o)) with false
    by now destruct o.
  rewrite Nat.ltb_antisym. now destruct (_ <=? _).
Qed.

(** C4 — Any-absorption: every object is strictly compatible with [Any] as
    receiver; [Any] as sender is strictly compatible with [Any] only; the
    relaxed check answers true as soon as one side is [Any]. *)
Theorem any_absorption (D : pyobj) :
  strict_ D PAny = true /\
  (strict_ PAny D = true <-> D = PAny) /\
  relaxed_ PAny D = true /\
  relaxed_ D PAny = true.
Proof.
  split; [|split; [split|split]].
  - rewrite strict_unfold. cbn [is_Any]. now rewrite orb_true_r.
  - rewrite strict_unfold, py_eq_Any_l, orb_diag. cbn [is_Any].
    destruct (is_Any D) eqn:E; [intros _; now apply is_Any_true|discriminate].
  - intros ->. apply strict_refl.
  - now rewrite relaxed_unfold.
  - rewrite relaxed_unfold. cbn [is_Any]. now rewrite orb_true_r.
Qed.

(** C2 — strict rule 7.  For a sender and a receiver that carry the same
    origin: a sender as [typing] builds it with more arguments than the
    receiver is refused; a sender with at most as many arguments, each
    strictly compatible with the receiver's argument at its position, is
    accepted whatever the receiver's further arguments; and when the two
    are not [==] and the receiver has arguments the answer is exactly
    that: no more arguments, and every pair of arguments at the same
    position strictly compatible.
    [Mapping[str]] goes into [Mapping[str, int]] and not the other way, and
    [Mapping[str, int]] does not go into [Mapping[int, str]]. *)
Theorem strict_positional_arguments (sender receiver : pyobj) (o : origin) :
  (get_origin sender = Some o -> get_origin receiver = Some o ->
   well_formed sender = true ->
   List.length (get_args receiver) < List.length (get_args sender) ->
   strict_ sender receiver = false) /\
  (get_origin sender = Some o -> get_origin receiver = Some o ->
   List.length (get_args sender) <= List.length (get_args receiver) ->
   (forall p, In p (combine (get_args sender) (get_args receiver)) ->
              strict_ (fst p) (snd p) = true) ->
   strict_ sender receiver = true) /\
  (get_origin sender = Some o -> get_origin receiver = Some o ->
   get_args receiver <> [] -> py_eq sender receiver = false ->
   strict_ sender receiver =
   (List.length (get_args sender) <=? List.length (get_args receiver))
   && all_zip strict_ (get_args sender) (get_args receiver)) /\
  strict_ (Mapping [str_]) (Mapping [str_; int_]) = true /\
  strict_ (Mapping [str_; int_]) (Mapping [str_]) = false /\
  _strict_types_are_compatible builtin_subclass
    (Mapping [str_; int_]) (Mapping [int_; str_]) = false.
Proof.
  split; [|split; [|split; [|split; [|split]; reflexivity]]].
  - intros Hs Hr W L.
    assert (E : py_eq sender receiver = false).
    { destruct (py_eq sender receiver) eqn:E; [|reflexivity].
      apply (py_eq_args_length _ _ W) in E. lia. }
    rewrite (strict_same_origin _ _ o Hs Hr E).
    apply andb_false_intro1. apply Nat.leb_gt. exact L.
  - intros Hs Hr L Hp.
    destruct (py_eq sender receiver) eqn:E.
    + rewrite strict_unfold, E. reflexivity.
    + rewrite (strict_same_origin _ _ o Hs Hr E).
      apply andb_true_intro. split; [now apply Nat.leb_le|].
      now apply all_zip_true_iff.
  - intros Hs Hr _ E. exact (strict_same_origin _ _ o Hs Hr E).
Qed.

(** C3, as the code has it — strict rule 5.  A sender that is neither a
    [Union] nor [Any] is strictly compatible with a [Union] exactly when it
    is with one of the alternatives; a [Union] sender is refused by every
    receiver without an origin other than [Any]; [int] goes into
    [Union[int, str]] and [Union[int, str]] does not go into [int]. *)
Theorem strict_union_receiver (sender receiver : pyobj) (alts : list pyobj) :
  (is_Union (get_origin sender) = false -> is_Any sender = false ->
   (strict_ sender (PUnion alts) = true <->
    exists a, In a alts /\ strict_ sender a = true)) /\
  (get_origin receiver = None -> is_Any receiver = false ->
   strict_ (PUnion alts) receiver = false) /\
  strict_ int_ (PUnion [int_; str_]) = true /\
  strict_ (PUnion [int_; str_]) int_ = false.
Proof.
  split; [|split; [|split; reflexivity]].
  - intros U A. rewrite strict_unfold, A.
    replace (py_eq sender (PUnion alts)) with false
      by (destruct sender; try reflexivity; discriminate).
    rewrite (try_issubclass_origin_r sender (PUnion alts)) by reflexivity.
    cbn [is_Any orb get_origin get_args is_Union]. rewrite U. cbn [negb andb].
    apply existsb_exists.
  - intros O A. rewrite strict_unfold, A, O.
    replace (py_eq (PUnion alts) receiver) with false
      by (destruct receiver; try reflexivity; discriminate).
    rewrite (try_issubclass_origin_l (PUnion alts) receiver) by reflexivity.
    reflexivity.
Qed.

(** C7, as the code has it — generics without arguments.  A generic with
    arguments is strictly compatible neither with the alias without
    arguments nor with the plain class of its origin, and the plain class
    is not with it; the alias without arguments, as sender, is strictly
    compatible with every form with arguments of the same origin. *)
Theorem strict_bare_generic (o : string) (a : pyobj) (args : list pyobj) :
  strict_ (PGeneric o (a :: args)) (PGeneric o []) = false /\
  strict_ (PGeneric o (a :: args)) (PClass o) = false /\
  strict_ (PClass o) (PGeneric o (a :: args)) = false /\
  strict_ (PGeneric o []) (PGeneric o (a :: args)) = true.
Proof.
  split; [|split; [|split]].
  - rewrite (strict_same_origin _ _ (OClass o)); try reflexivity.
    rewrite py_eq_tuple_unfold. cbn. now rewrite andb_false_r.
  - rewrite strict_unfold. reflexivity.
  - rewrite strict_unfold. reflexivity.
  - rewrite (strict_same_origin _ _ (OClass o)); try reflexivity.
    rewrite py_eq_tuple_unfold. cbn. now rewrite andb_false_r.
Qed.

End Strict.

(** ** Reordered unions *)

Lemma Forall2_covered (R : pyobj -> pyobj -> Prop) (xs ys : list pyobj) :
  Forall2 R xs ys ->
  (forall a, In a xs -> exists b, In b ys /\ R a b) /\
  (forall b, In b ys -> exists a, In a xs /\ R a b).
Proof.
  induction 1 as [|a b xs ys Hab _ [IH1 IH2]]; split; simpl; try tauto.
  - intros a' [<-|H]; [eauto|]. destruct (IH1 a' H) as (b' & ? & ?). eauto.
  - intros b' [<-|H]; [eauto|]. destruct (IH2 b' H) as (a' & ? & ?). eauto.
Qed.

(** An object and its reordering are [==]. *)
Lemma reordered_py_eq (x y : pyobj) : reordered x y -> py_eq x y = true.
Proof.
  induction 1 as [x | xs ys zs _ IH Pm | xs ys _ IH | o xs ys _ IH]
    using reordered_nested_ind.
  - apply py_eq_refl.
  - rewrite py_eq_union_unfold, same_set_iff.
    destruct (Forall2_covered _ _ _ IH) as [C1 C2]. split.
    + intros a Ha. destruct (C1 a Ha) as (b & Hb & E). exists b.
      split; [now apply (Permutation_in _ Pm)|assumption].
    + intros c Hc. apply (Permutation_in _ (Permutation_sym Pm)) in Hc.
      destruct (C2 c Hc) as (a & Ha & E). exists a. rewrite py_eq_sym. auto.
  - rewrite py_eq_literal_unfold, same_set_iff.
    destruct (Forall2_covered _ _ _ IH) as [C1 C2]. split.
    + exact C1.
    + intros c Hc. destruct (C2 c Hc) as (a & Ha & E). exists a.
      rewrite py_eq_sym. auto.
  - rewrite py_eq_tuple_unfold, String.eqb_refl, (Forall2_length IH), Nat.eqb_refl.
    cbn [andb]. induction IH as [|a b xs ys E _ IHl]; [reflexivity|].
    now rewrite all_zip_cons, E, IHl.
Qed.

(** [==] does not see the order of the alternatives. *)
Lemma py_eq_reordered (x x' y y' : pyobj) :
  reordered x x' -> reordered y y' -> py_eq x y = py_eq x' y'.
Proof.
  intros Hx Hy. apply reordered_py_eq in Hx, Hy.
  apply eq_true_iff_eq. split; intros E.
  - apply (py_eq_trans x' x y'); [now rewrite py_eq_sym|].
    now apply (py_eq_trans x y y').
  - apply (py_eq_trans x x' y); [assumption|].
    apply (py_eq_trans x' y' y); [assumption|now rewrite py_eq_sym].
Qed.

(** What a reordering keeps. *)
Lemma reordered_origin (x y : pyobj) : reordered x y -> get_origin x = get_origin y.
Proof. now destruct 1. Qed.

Lemma reordered_is_Any (x y : pyobj) : reordered x y -> is_Any x = is_Any y.
Proof. now destruct 1. Qed.

Lemma reordered_no_origin (x y : pyobj) :
  reordered x y -> get_origin x = None -> y = x.
Proof. destruct 1; cbn; congruence. Qed.

Lemma Forall2_reordered_refl (xs : list pyobj) : Forall2 reordered xs xs.
Proof. induction xs; constructor; auto using reordered_same. Qed.

(** The arguments of a reordered object: reordered one by one, and then,
    in a [Union], permuted. *)
Lemma reordered_args (x y : pyobj) :
  reordered x y ->
  exists ys, Forall2 reordered (get_args x) ys /\ Permutation ys (get_args y) /\
             (is_Union (get_origin x) = false -> ys = get_args y).
Proof.
  destruct 1 as [x | xs ys zs F Pm | xs ys F | o xs ys F]; cbn [get_args get_origin].
  - exists (get_args x). auto using Forall2_reordered_refl.
  - exists ys. cbn. repeat split; auto; discriminate.
  - exists ys. auto.
  - exists ys. auto.
Qed.

Lemma existsb_Permutation {A} (f : A -> bool) (xs ys : list A) :
  Permutation xs ys -> existsb f xs = existsb f ys.
Proof.
  intros Pm. apply eq_true_iff_eq. rewrite !existsb_exists.
  split; intros (a & Ha & E); exists a; split; auto.
  - now apply (Permutation_in _ Pm).
  - now apply (Permutation_in _ (Permutation_sym Pm)).
Qed.

Lemma existsb_Forall2 {A B} (R : A -> B -> Prop) (f : A -> bool) (g : B -> bool)
    (xs : list A) (ys : list B) :
  Forall2 R xs ys ->
  (forall a b, In a xs -> In b ys -> R a b -> f a = g b) ->
  existsb f xs = existsb g ys.
Proof.
  induction 1 as [|a b xs ys Hab _ IH]; intros H; [reflexivity|].
  cbn [existsb]. rewrite (H a b), IH; simpl; auto.
  intros; apply H; simpl; auto.
Qed.

Lemma all_zip_Forall2 (f g : pyobj -> pyobj -> bool) (xs xs' ys ys' : list pyobj) :
  Forall2 reordered xs xs' -> Forall2 reordered ys ys' ->
  (forall a a' b b', In a xs -> In b ys -> reordered a a' -> reordered b b' ->
                     f a b = g a' b') ->
  all_zip f xs ys = all_zip g xs' ys'.
Proof.
  intros Fx. revert ys ys'.
  induction Fx as [|a a' xs xs' Ha _ IH]; intros ys ys' Fy H; [reflexivity|].
  destruct Fy as [|b b' ys ys' Hb Fy]; [reflexivity|].
  rewrite !all_zip_cons, (H a a' b b'), (IH ys ys'); simpl; auto.
  intros; apply H; simpl; auto.
Qed.

(** ** The relaxed checker *)

Section Relaxed.

Variable subclass : string -> string -> bool.

Local Abbreviation relaxed_ := (_relaxed_types_are_compatible subclass).

Lemma origin_eq_sym (a b : option origin) : origin_eq a b = origin_eq b a.
Proof.
  destruct a as [[| |c]|], b as [[| |d]|]; cbn; auto using String.eqb_sym.
Qed.

Lemma same_origin_sym (a b : option origin) :
  truthy a && truthy a && origin_eq a b = truthy b && truthy b && origin_eq b a.
Proof.
  rewrite (origin_eq_sym b a). destruct a, b; reflexivity.
Qed.

Lemma relaxed_refl (x : pyobj) : relaxed_ x x = true.
Proof. rewrite relaxed_unfold, py_eq_refl. now rewrite orb_true_r. Qed.

(** C10 — the relaxed check answers the same when sender and receiver
    change places. *)
Theorem relaxed_symmetric (sender receiver : pyobj) :
  relaxed_ sender receiver = relaxed_ receiver sender.
Proof.
  revert sender receiver.
  apply (pair_size_ind (fun s r => relaxed_ s r = relaxed_ r s)).
  intros s r IH.
  rewrite (relaxed_unfold subclass s r), (relaxed_unfold subclass r s).
  rewrite (py_eq_sym r s), (orb_comm (is_Any r) (is_Any s)).
  destruct (is_Any s || is_Any r || py_eq s r); [reflexivity|].
  destruct (try_issubclass subclass s r), (try_issubclass subclass r s);
    try reflexivity.
  rewrite (orb_comm (is_Union (get_origin r))).
  destruct (is_Union (get_origin s) || is_Union (get_origin r)) eqn:U.
  - unfold _relaxed_check_union_compatibility.
    destruct (is_Union (get_origin s)), (is_Union (get_origin r));
      cbn [negb andb]; try discriminate.
    + rewrite existsb_swap. apply existsb_ext_in. intros b Hb.
      apply existsb_ext_in. intros a Ha. apply IH.
      apply size_get_args in Ha, Hb. lia.
    + apply existsb_ext_in. intros a Ha. apply IH.
      apply size_get_args in Ha. lia.
    + apply existsb_ext_in. intros b Hb. apply IH.
      apply size_get_args in Hb. lia.
  - rewrite (same_origin_sym (get_origin r)).
    destruct (negb _); [reflexivity|].
    rewrite (andb_comm (is_Literal (get_origin r))).
    destruct (is_Literal (get_origin s) && is_Literal (get_origin r)).
    + rewrite existsb_swap. apply existsb_ext_in. intros b _.
      apply existsb_ext_in. intros a _. apply py_eq_sym.
    + rewrite (Nat.eqb_sym (List.length (get_args r))).
      destruct (negb _); [reflexivity|].
      apply all_zip_flip. intros a b Ha Hb. apply IH.
      apply size_get_args in Ha, Hb. lia.
Qed.

Lemma try_issubclass_reordered (x x' y y' : pyobj) :
  reordered x x' -> reordered y y' ->
  try_issubclass subclass x y = try_issubclass subclass x' y'.
Proof.
  intros Hx Hy.
  destruct (get_origin x) eqn:Ox.
  - rewrite !try_issubclass_origin_l; auto.
    + now rewrite <- (reordered_origin _ _ Hx), Ox.
    + now rewrite Ox.
  - destruct (get_origin y) eqn:Oy.
    + rewrite !try_issubclass_origin_r; auto.
      * now rewrite <- (reordered_origin _ _ Hy), Oy.
      * now rewrite Oy.
    + now rewrite (reordered_no_origin _ _ Hx Ox), (reordered_no_origin _ _ Hy Oy).
Qed.

(** The relaxed check does not see the order of the alternatives. *)
Lemma relaxed_reordered (sender receiver : pyobj) :
  forall sender' receiver',
    reordered sender sender' -> reordered receiver receiver' ->
    relaxed_ sender receiver = relaxed_ sender' receiver'.
Proof.
  revert sender receiver.
  apply (pair_size_ind (fun s r => forall s' r',
           reordered s s' -> reordered r r' -> relaxed_ s r = relaxed_ s' r')).
  intros s r IH s' r' Hs Hr.
  rewrite (relaxed_unfold subclass s r), (relaxed_unfold subclass s' r').
  rewrite <- (reordered_is_Any _ _ Hs), <- (reordered_is_Any _ _ Hr),
    <- (py_eq_reordered _ _ _ _ Hs Hr),
    <- (try_issubclass_reordered _ _ _ _ Hs Hr),
    <- (try_issubclass_reordered _ _ _ _ Hr Hs),
    <- (reordered_origin _ _ Hs), <- (reordered_origin _ _ Hr).
  destruct (is_Any s || is_Any r || py_eq s r); [reflexivity|].
  destruct (try_issubclass subclass s r); [reflexivity|].
  destruct (try_issubclass subclass r s); [reflexivity|].
  destruct (reordered_args _ _ Hs) as (ss & Fs & Ps & Es).
  destruct (reordered_args _ _ Hr) as (rs & Fr & Pr & Er).
  assert (inner : forall a a', In a (get_args s) -> reordered a a' ->
            existsb (fun b => relaxed_ a b) (get_args r) =
            existsb (fun b => relaxed_ a' b) (get_args r')).
  { intros a a' Ha Haa. rewrite <- (existsb_Permutation _ _ _ Pr).
    apply (existsb_Forall2 reordered); [assumption|].
    intros b b' Hb _ Hbb. apply IH; auto.
    apply size_get_args in Ha, Hb. lia. }
  destruct (is_Union (get_origin s) || is_Union (get_origin r)) eqn:U.
  - unfold _relaxed_check_union_compatibility.
    destruct (is_Union (get_origin s)), (is_Union (get_origin r));
      cbn [negb andb]; try discriminate.
    + rewrite <- (existsb_Permutation _ _ _ Ps).
      apply (existsb_Forall2 reordered); [assumption|].
      intros a a' Ha _ Haa. now apply inner.
    + rewrite <- (existsb_Permutation _ _ _ Ps).
      apply (existsb_Forall2 reordered); [assumption|].
      intros a a' Ha _ Haa. apply IH; auto. apply size_get_args in Ha. lia.
    + rewrite <- (existsb_Permutation _ _ _ Pr).
      apply (existsb_Forall2 reordered); [assumption|].
      intros b b' Hb _ Hbb. apply IH; auto. apply size_get_args in Hb. lia.
  - apply orb_false_elim in U as [Us Ur].
    specialize (Es Us). specialize (Er Ur). subst ss rs.
    destruct (negb _); [reflexivity|].
    destruct (is_Literal (get_origin s) && is_Literal (get_origin r)).
    + apply (existsb_Forall2 reordered); [assumption|].
      intros a a' _ _ Haa. apply (existsb_Forall2 reordered); [assumption|].
      intros b b' _ _ Hbb. now apply py_eq_reordered.
    + rewrite <- (Forall2_length Fs), <- (Forall2_length Fr).
      destruct (negb _); [reflexivity|].
      apply all_zip_Forall2; auto.
      intros a a' b b' Ha Hb Haa Hbb. apply IH; auto.
      apply size_get_args in Ha, Hb. lia.
Qed.

(** C5 — two [Literal]s that are not [==] are relaxed-compatible exactly
    when a member of the one is [==] to a member of the other, whatever the
    positions; between constants that is: a value occurs in both.
    [Literal["a", "b"]] meets [Literal["b", "c"]], [Literal["a"]] does not meet
    [Literal["b"]]. *)
Theorem relaxed_literal_intersection (xs ys : list pyobj) :
  (py_eq (PLiteral xs) (PLiteral ys) = false ->
   (relaxed_ (PLiteral xs) (PLiteral ys) = true <->
    exists a b, In a xs /\ In b ys /\ py_eq a b = true)) /\
  (py_eq (PLiteral xs) (PLiteral ys) = false -> forallb is_constant xs = true ->
   (relaxed_ (PLiteral xs) (PLiteral ys) = true <->
    exists v, In v xs /\ In v ys)) /\
  relaxed_ (PLiteral [PStr "a"; PStr "b"]) (PLiteral [PStr "b"; PStr "c"]) = true /\
  relaxed_ (PLiteral [PStr "a"]) (PLiteral [PStr "b"]) = false.
Proof.
  assert (main : py_eq (PLiteral xs) (PLiteral ys) = false ->
            (relaxed_ (PLiteral xs) (PLiteral ys) = true <->
             exists a b, In a xs /\ In b ys /\ py_eq a b = true)).
  { intros E. rewrite relaxed_unfold, E. cbn. rewrite existsb_exists. split.
    - intros (a & Ha & H). apply existsb_exists in H as (b & Hb & H). eauto.
    - intros (a & b & Ha & Hb & H). exists a. split; [assumption|].
      apply existsb_exists. eauto. }
  split; [exact main|split; [|split; reflexivity]].
  intros E C. rewrite (main E). rewrite forallb_forall in C. split.
  - intros (a & b & Ha & Hb & H). apply py_eq_constant in H; [|auto].
    subst b. eauto.
  - intros (v & Ha & Hb). exists v, v. auto using py_eq_refl.
Qed.

Lemma existsb_map_PClass (f : pyobj -> bool) (cs : list string) :
  existsb f (map PClass cs) = existsb (fun c => f (PClass c)) cs.
Proof. induction cs as [|c cs IH]; [reflexivity|]. cbn. now rewrite IH. Qed.

Lemma relaxed_classes (c d : string) :
  relaxed_ (PClass c) (PClass d) = String.eqb c d || subclass c d || subclass d c.
Proof.
  rewrite relaxed_unfold. cbn.
  destruct (String.eqb c d), (subclass c d), (subclass d c); reflexivity.
Qed.

(** C6 — the union rule of the relaxed check.  Once neither side is [Any]
    and the two are not [==]: a [Union] sender against another receiver is
    accepted exactly when one of its alternatives is; a [Union] receiver
    against another sender exactly when the sender is accepted by one of its
    alternatives; two [Union]s exactly when some alternative of the one is
    accepted by some alternative of the other.  On classes that is: a
    [Union] of classes and a class go together exactly when one of the
    classes of the union is the class, derives from it or is derived by it,
    and two [Union]s of classes exactly when they are [==] or one class of
    the one stands so to one class of the other, however many others do
    not.  [Union[int, str]] and [Union[str, float]] go together, [bool]
    goes with [Union[int, str]], [float] does not. *)
Theorem relaxed_union_partial (sender receiver : pyobj) (cs ds : list string) (d : string) :
  (is_Any sender = false -> is_Any receiver = false ->
   py_eq sender receiver = false ->
   (is_Union (get_origin sender) = true -> is_Union (get_origin receiver) = false ->
    (relaxed_ sender receiver = true <->
     exists a, In a (get_args sender) /\ relaxed_ a receiver = true)) /\
   (is_Union (get_origin sender) = false -> is_Union (get_origin receiver) = true ->
    (relaxed_ sender receiver = true <->
     exists b, In b (get_args receiver) /\ relaxed_ sender b = true)) /\
   (is_Union (get_origin sender) = true -> is_Union (get_origin receiver) = true ->
    (relaxed_ sender receiver = true <->
     exists a b, In a (get_args sender) /\ In b (get_args receiver) /\
                 relaxed_ a b = true))) /\
  relaxed_ (PUnion (map PClass cs)) (PClass d) =
    existsb (fun c => String.eqb c d || subclass c d || subclass d c) cs /\
  relaxed_ (PClass d) (PUnion (map PClass cs)) =
    existsb (fun c => String.eqb d c || subclass d c || subclass c d) cs /\
  relaxed_ (PUnion (map PClass cs)) (PUnion (map PClass ds)) =
    py_eq (PUnion (map PClass cs)) (PUnion (map PClass ds))
    || existsb (fun c =>
         existsb (fun e => String.eqb c e || subclass c e || subclass e c) ds) cs /\
  _relaxed_types_are_compatible builtin_subclass
    (PUnion [int_; str_]) (PUnion [str_; float_]) = true /\
  _relaxed_types_are_compatible builtin_subclass (PUnion [int_; str_]) bool_ = true /\
  _relaxed_types_are_compatible builtin_subclass bool_ (PUnion [int_; str_]) = true /\
  _relaxed_types_are_compatible builtin_subclass (PUnion [int_; str_]) float_ = false /\
  _relaxed_types_are_compatible builtin_subclass float_ (PUnion [int_; str_]) = false /\
  _relaxed_types_are_compatible builtin_subclass
    (PUnion [int_; str_]) (PUnion [float_; NoneType]) = false.
Proof.
  split; [|split; [|split; [|split; [|repeat split]]]].
  - intros As Ar E.
    assert (truthy_union : forall x, is_Union (get_origin x) = true ->
              truthy (get_origin x) = true).
    { intros x. now destruct (get_origin x) as [[]|]. }
    split; [|split]; intros Us Ur;
      rewrite relaxed_unfold, As, Ar, E, Us, Ur;
      unfold _relaxed_check_union_compatibility; rewrite Us, Ur; cbn [orb negb andb].
    + rewrite try_issubclass_origin_l, try_issubclass_origin_r by auto.
      apply existsb_exists.
    + rewrite try_issubclass_origin_r, try_issubclass_origin_l by auto.
      apply existsb_exists.
    + rewrite try_issubclass_origin_l, try_issubclass_origin_r by auto.
      rewrite existsb_exists. split.
      * intros (a & Ha & H). apply existsb_exists in H as (b & Hb & H). eauto.
      * intros (a & b & Ha & Hb & H). exists a. split; [assumption|].
        apply existsb_exists. eauto.
  - rewrite relaxed_unfold. unfold _relaxed_check_union_compatibility.
    cbn [is_Any py_eq orb try_issubclass issubclass get_origin is_Union
         negb andb get_args].
    rewrite existsb_map_PClass. apply existsb_ext_in. intros c _.
    apply relaxed_classes.
  - rewrite relaxed_unfold. unfold _relaxed_check_union_compatibility.
    cbn [is_Any py_eq orb try_issubclass issubclass get_origin is_Union
         negb andb get_args].
    rewrite existsb_map_PClass. apply existsb_ext_in. intros c _.
    apply relaxed_classes.
  - rewrite relaxed_unfold. unfold _relaxed_check_union_compatibility.
    cbn [is_Any orb try_issubclass issubclass get_origin is_Union
         negb andb get_args].
    destruct (py_eq (PUnion (map PClass cs)) (PUnion (map PClass ds)));
      [reflexivity|]. cbn [orb].
    rewrite existsb_map_PClass. apply existsb_ext_in. intros c _.
    rewrite existsb_map_PClass. apply existsb_ext_in. intros e _.
    apply relaxed_classes.
Qed.

End Relaxed.

(** ** The order of the alternatives of a union *)

Section UnionOrder.

Variable subclass : string -> string -> bool.

Local Abbreviation strict_ := (_strict_types_are_compatible subclass).
Local Abbreviation relaxed_ := (_relaxed_types_are_compatible subclass).

Lemma union_free_args (x a : pyobj) :
  union_free x = true -> In a (get_args x) -> union_free a = true.
Proof.
  destruct x; cbn [union_free get_args]; try (intros _ []); try discriminate.
  all: intros H Ha; rewrite forallb_forall in H; auto.
Qed.

Lemma union_free_not_Union (x : pyobj) :
  union_free x = true -> is_Union (get_origin x) = false.
Proof. destruct x; cbn; congruence. Qed.

Lemma union_free_reordered (x y : pyobj) :
  union_free x = true -> reordered x y -> y = x.
Proof.
  intros F H. revert F.
  induction H as [x | xs ys zs _ _ _ | xs ys _ IHl | o xs ys _ IHl]
    using reordered_nested_ind; cbn [union_free]; intros F;
    try reflexivity; try discriminate.
  all: f_equal; rewrite forallb_forall in F;
    induction IHl as [|x y xs ys E _ IHf]; [reflexivity|];
    f_equal; [apply E|apply IHf]; intros; apply F; simpl; auto.
Qed.

(** The strict check of a sender without unions does not see the order of
    the receiver's alternatives. *)
Lemma strict_reordered_receiver (receiver : pyobj) :
  forall sender receiver',
    union_free sender = true -> reordered receiver receiver' ->
    strict_ sender receiver = strict_ sender receiver'.
Proof.
  induction receiver as [r IH] using (well_founded_induction
    (well_founded_ltof _ size)).
  unfold ltof in IH. intros s r' F Hr.
  rewrite (strict_unfold subclass s r), (strict_unfold subclass s r').
  rewrite <- (reordered_is_Any _ _ Hr),
    <- (py_eq_reordered _ _ _ _ (reordered_same s) Hr),
    <- (try_issubclass_reordered subclass _ _ _ _ (reordered_same s) Hr),
    <- (reordered_origin _ _ Hr).
  destruct (py_eq s r || is_Any r); [reflexivity|].
  destruct (is_Any s); [reflexivity|].
  destruct (try_issubclass subclass s r); [reflexivity|].
  destruct (reordered_args _ _ Hr) as (rs & Fr & Pr & Er).
  rewrite (union_free_not_Union _ F). cbn [negb andb].
  destruct (is_Union (get_origin r)) eqn:Ur.
  - rewrite <- (existsb_Permutation _ _ _ Pr).
    apply (existsb_Forall2 reordered); [assumption|].
    intros b b' Hb _ Hbb. apply IH; auto. now apply size_get_args.
  - specialize (Er eq_refl). subst rs.
    destruct (negb _); [reflexivity|].
    rewrite <- (Forall2_length Fr).
    destruct (_ <? _); [reflexivity|].
    apply all_zip_Forall2; auto using Forall2_reordered_refl.
    intros a a' b b' Ha Hb Haa Hbb.
    assert (Fa : union_free a = true) by eauto using union_free_args.
    rewrite (union_free_reordered _ _ Fa Haa).
    apply IH; auto. now apply size_get_args.
Qed.

(** C1, as the code has it — reordering the alternatives of the unions of
    the sender and of the receiver, at any depth, never changes the answer
    of the relaxed check, and never the answer of the strict check when the
    sender holds no union (the strict check searches the alternatives of a
    receiver only). *)
Theorem union_order_irrelevant (sender sender' receiver receiver' : pyobj) :
  reordered sender sender' -> reordered receiver receiver' ->
  relaxed_ sender receiver = relaxed_ sender' receiver' /\
  (union_free sender = true -> strict_ sender receiver = strict_ sender' receiver').
Proof.
  intros Hs Hr. split.
  - now apply relaxed_reordered.
  - intros F. rewrite (union_free_reordered _ _ F Hs).
    now apply strict_reordered_receiver.
Qed.

End UnionOrder.

(** ** Exceptions *)

Lemma returns_value (b : bool) : returns (Returns b).
Proof. now exists b. Qed.

Lemma returns_if (c : bool) (m n : outcome bool) :
  returns m -> returns n -> returns (if c then m else n).
Proof. now destruct c. Qed.

Lemma returns_try (m : outcome bool) (k : bool -> outcome bool) :
  (forall b, returns (k b)) -> returns (returned <- try_if_pass m ;; k returned).
Proof. intros H. destruct m as [b|]; cbn; apply H. Qed.

Lemma any_raising_returns (f : pyobj -> outcome bool) (l : list pyobj) :
  (forall a, In a l -> returns (f a)) -> returns (any_raising f l).
Proof.
  induction l as [|a l IH]; intros H; cbn; [apply returns_value|].
  destruct (H a (or_introl eq_refl)) as [b ->]. cbn.
  destruct b; [apply returns_value|]. apply IH. intros; apply H; simpl; auto.
Qed.

Lemma all_zip_raising_returns (f : pyobj -> pyobj -> outcome bool) (xs ys : list pyobj) :
  (forall a b, In a xs -> In b ys -> returns (f a b)) ->
  returns (all_zip_raising f xs ys).
Proof.
  revert ys; induction xs as [|a xs IH]; intros [|b ys] H; cbn;
    try apply returns_value.
  destruct (H a b) as [r ->]; simpl; auto. cbn.
  destruct r; [|apply returns_value]. apply IH. intros; apply H; simpl; auto.
Qed.

Lemma any_raising_pure (f : pyobj -> outcome bool) (g : pyobj -> bool) (l : list pyobj) :
  (forall a, In a l -> f a = Returns (g a)) ->
  any_raising f l = Returns (existsb g l).
Proof.
  induction l as [|a l IH]; intros H; cbn; [reflexivity|].
  rewrite (H a) by (simpl; auto). cbn.
  destruct (g a); [reflexivity|]. apply IH. intros; apply H; simpl; auto.
Qed.

Lemma all_zip_raising_pure (f : pyobj -> pyobj -> outcome bool)
    (g : pyobj -> pyobj -> bool) (xs ys : list pyobj) :
  (forall a b, In a xs -> In b ys -> f a b = Returns (g a b)) ->
  all_zip_raising f xs ys = Returns (all_zip g xs ys).
Proof.
  revert ys; induction xs as [|a xs IH]; intros [|b ys] H; try reflexivity.
  change (all_zip_raising f (a :: xs) (b :: ys))
    with (r <- f a b ;; if r then all_zip_raising f xs ys else Returns false).
  rewrite (H a b) by (simpl; auto). rewrite all_zip_cons. cbn [bind].
  destruct (g a b); [|reflexivity]. apply IH. intros; apply H; simpl; auto.
Qed.

Section RaisingEquations.

Variable oracle : pyobj -> pyobj -> outcome bool.

Lemma strict_raising_zipped (ss rs : list pyobj) :
  (fix zipped (ss rs : list pyobj) {struct rs} : outcome bool :=
     match ss, rs with
     | s :: ss', r :: rs' =>
         b <- strict_raising oracle s r ;; if b then zipped ss' rs' else Returns false
     | _, _ => Returns true
     end) ss rs = all_zip_raising (strict_raising oracle) ss rs.
Proof.
  revert ss; induction rs as [|r rs IH]; intros [|s ss]; try reflexivity.
  cbn. now rewrite <- IH.
Qed.

Lemma relaxed_raising_zipped (ss rs : list pyobj) :
  (fix zipped (ss rs : list pyobj) {struct ss} : outcome bool :=
     match ss, rs with
     | s_arg :: ss', r_arg :: rs' =>
         b <- relaxed_raising oracle s_arg r_arg ;;
         if b then zipped ss' rs' else Returns false
     | _, _ => Returns true
     end) ss rs = all_zip_raising (relaxed_raising oracle) ss rs.
Proof. reflexivity. Qed.

Lemma all_zip_raising_nil_r f xs : all_zip_raising f xs [] = Returns true.
Proof. destruct xs; reflexivity. Qed.

Lemma strict_raising_unfold (sender receiver : pyobj) :
  strict_raising oracle sender receiver =
  if py_eq sender receiver || is_Any receiver then Returns true
  else if is_Any sender then Returns false
  else
    returned <- try_if_pass (oracle sender receiver) ;;
    if returned then Returns true
    else if negb (is_Union (get_origin sender)) && is_Union (get_origin receiver) then
      any_raising (fun union_arg => strict_raising oracle sender union_arg)
                  (get_args receiver)
    else if negb (truthy (get_origin sender) && truthy (get_origin receiver)
                  && origin_eq (get_origin sender) (get_origin receiver))
    then Returns false
    else if List.length (get_args receiver) <? List.length (get_args sender)
    then Returns false
    else all_zip_raising (strict_raising oracle) (get_args sender) (get_args receiver).
Proof.
  destruct receiver;
    cbn [strict_raising get_args get_origin is_Union is_Any truthy];
    rewrite ?strict_raising_zipped, ?andb_false_r, ?andb_true_r,
      ?all_zip_raising_nil_r;
    cbn [negb]; try reflexivity.
  all: repeat match goal with |- context [if ?b then _ else _] => destruct b end;
    try reflexivity.
  all: destruct (try_if_pass _) as [[]|]; reflexivity.
Qed.

Lemma relaxed_raising_unfold (sender receiver : pyobj) :
  relaxed_raising oracle sender receiver =
  if is_Any sender || is_Any receiver || py_eq sender receiver then Returns true
  else
    returned <- try_if_pass (oracle sender receiver) ;;
    if returned then Returns true
    else
      returned <- try_if_pass (oracle receiver sender) ;;
      if returned then Returns true
      else if is_Union (get_origin sender) || is_Union (get_origin receiver) then
        if is_Union (get_origin sender) && negb (is_Union (get_origin receiver)) then
          any_raising (fun union_arg => relaxed_raising oracle union_arg receiver)
                      (get_args sender)
        else if is_Union (get_origin receiver) && negb (is_Union (get_origin sender)) then
          any_raising (fun union_arg => relaxed_raising oracle sender union_arg)
                      (get_args receiver)
        else
          any_raising (fun arg1 =>
             any_raising (fun arg2 => relaxed_raising oracle arg1 arg2)
                         (get_args receiver))
            (get_args sender)
      else if negb (truthy (get_origin sender) && truthy (get_origin sender)
                    && origin_eq (get_origin sender) (get_origin receiver))
      then Returns false
      else if is_Literal (get_origin sender) && is_Literal (get_origin receiver) then
        Returns (existsb (fun sender_arg =>
           existsb (fun receiver_arg => py_eq sender_arg receiver_arg)
                   (get_args receiver))
          (get_args sender))
      else if negb (List.length (get_args sender) =? List.length (get_args receiver))
      then Returns false
      else all_zip_raising (relaxed_raising oracle) (get_args sender) (get_args receiver).
Proof.
  destruct sender, receiver;
    cbn [relaxed_raising get_args get_origin is_Union is_Literal
         is_Any truthy negb andb orb];
    rewrite ?relaxed_raising_zipped; reflexivity.
Qed.

End RaisingEquations.

Section NeverRaises.

Variable oracle : pyobj -> pyobj -> outcome bool.

Lemma strict_raising_returns (receiver : pyobj) :
  forall sender, returns (strict_raising oracle sender receiver).
Proof.
  induction receiver as [r IH] using (well_founded_induction
    (well_founded_ltof _ size)).
  unfold ltof in IH. intros s. rewrite strict_raising_unfold.
  repeat first
    [ apply returns_value
    | apply returns_if
    | apply returns_try; intros [] ].
  - apply any_raising_returns. intros a Ha. apply IH. now apply size_get_args.
  - apply all_zip_raising_returns. intros a b _ Hb. apply IH.
    now apply size_get_args.
Qed.

Lemma relaxed_raising_returns (sender receiver : pyobj) :
  returns (relaxed_raising oracle sender receiver).
Proof.
  revert sender receiver.
  apply (pair_size_ind (fun s r => returns (relaxed_raising oracle s r))).
  intros s r IH. rewrite relaxed_raising_unfold.
  repeat first
    [ apply returns_value
    | apply returns_if
    | apply returns_try; intros [] ].
  - apply any_raising_returns. intros a Ha. apply IH.
    apply size_get_args in Ha. lia.
  - apply any_raising_returns. intros b Hb. apply IH.
    apply size_get_args in Hb. lia.
  - apply any_raising_returns. intros a Ha.
    apply any_raising_returns. intros b Hb. apply IH.
    apply size_get_args in Ha, Hb. lia.
  - apply all_zip_raising_returns. intros a b Ha Hb. apply IH.
    apply size_get_args in Ha, Hb. lia.
Qed.

End NeverRaises.

Lemma any_raising_ext (f g : pyobj -> outcome bool) (l : list pyobj) :
  (forall a, In a l -> f a = g a) -> any_raising f l = any_raising g l.
Proof.
  induction l as [|a l IH]; intros H; [reflexivity|]. cbn.
  rewrite (H a) by (simpl; auto). destruct (g a) as [[]|]; cbn; try reflexivity.
  apply IH. intros; apply H; simpl; auto.
Qed.

Lemma all_zip_raising_ext (f g : pyobj -> pyobj -> outcome bool) (xs ys : list pyobj) :
  (forall a b, In a xs -> In b ys -> f a b = g a b) ->
  all_zip_raising f xs ys = all_zip_raising g xs ys.
Proof.
  revert ys; induction xs as [|a xs IH]; intros [|b ys] H; try reflexivity.
  cbn. rewrite (H a b) by (simpl; auto).
  destruct (g a b) as [[]|]; cbn; try reflexivity.
  apply IH. intros; apply H; simpl; auto.
Qed.

Section RaisingIsRefusing.

Variable oracle : pyobj -> pyobj -> outcome bool.

Lemma try_if_pass_fail_closed (a b : pyobj) :
  try_if_pass (fail_closed oracle a b) = try_if_pass (oracle a b).
Proof. unfold fail_closed. now destruct (oracle a b). Qed.

Lemma strict_raising_fail_closed (receiver : pyobj) :
  forall sender,
    strict_raising oracle sender receiver =
    strict_raising (fail_closed oracle) sender receiver.
Proof.
  induction receiver as [r IH] using (well_founded_induction
    (well_founded_ltof _ size)).
  unfold ltof in IH. intros s.
  rewrite (strict_raising_unfold oracle), (strict_raising_unfold (fail_closed oracle)),
    try_if_pass_fail_closed.
  destruct (py_eq s r || is_Any r); [reflexivity|].
  destruct (is_Any s); [reflexivity|].
  destruct (try_if_pass (oracle s r)) as [[]|]; cbn [bind]; try reflexivity.
  destruct (negb (is_Union (get_origin s)) && is_Union (get_origin r)).
  - apply any_raising_ext. intros a Ha. apply IH. now apply size_get_args.
  - destruct (negb _); [reflexivity|]. destruct (_ <? _); [reflexivity|].
    apply all_zip_raising_ext. intros a b _ Hb. apply IH. now apply size_get_args.
Qed.

Lemma relaxed_raising_fail_closed (sender receiver : pyobj) :
  relaxed_raising oracle sender receiver =
  relaxed_raising (fail_closed oracle) sender receiver.
Proof.
  revert sender receiver.
  apply (pair_size_ind (fun s r =>
    relaxed_raising oracle s r = relaxed_raising (fail_closed oracle) s r)).
  intros s r IH.
  rewrite (relaxed_raising_unfold oracle), (relaxed_raising_unfold (fail_closed oracle)),
    !try_if_pass_fail_closed.
  destruct (is_Any s || is_Any r || py_eq s r); [reflexivity|].
  destruct (try_if_pass (oracle s r)) as [[]|]; cbn [bind]; try reflexivity.
  destruct (try_if_pass (oracle r s)) as [[]|]; cbn [bind]; try reflexivity.
  destruct (is_Union (get_origin s) || is_Union (get_origin r)).
  - destruct (is_Union (get_origin s) && negb (is_Union (get_origin r)));
      [|destruct (is_Union (get_origin r) && negb (is_Union (get_origin s)))].
    + apply any_raising_ext. intros a Ha. apply IH. apply size_get_args in Ha. lia.
    + apply any_raising_ext. intros b Hb. apply IH. apply size_get_args in Hb. lia.
    + apply any_raising_ext. intros a Ha. apply any_raising_ext. intros b Hb.
      apply IH. apply size_get_args in Ha, Hb. lia.
  - destruct (negb _); [reflexivity|].
    destruct (is_Literal (get_origin s) && is_Literal (get_origin r)); [reflexivity|].
    destruct (negb _); [reflexivity|].
    apply all_zip_raising_ext. intros a b Ha Hb. apply IH.
    apply size_get_args in Ha, Hb. lia.
Qed.

End RaisingIsRefusing.

Section FailClosed.

Variable subclass : string -> string -> bool.

Lemma try_if_pass_issubclass (a b : pyobj) :
  try_if_pass (issubclass subclass a b) = Returns (try_issubclass subclass a b).
Proof.
  unfold try_issubclass. destruct (issubclass subclass a b) as [[]|]; reflexivity.
Qed.

(** With the host's [issubclass] the exception-tracking checkers return what
    the checkers of the first part compute. *)
Lemma strict_raising_pure (receiver : pyobj) :
  forall sender,
    strict_raising (issubclass subclass) sender receiver =
    Returns (_strict_types_are_compatible subclass sender receiver).
Proof.
  induction receiver as [r IH] using (well_founded_induction
    (well_founded_ltof _ size)).
  unfold ltof in IH. intros s.
  rewrite strict_raising_unfold, strict_unfold, try_if_pass_issubclass.
  cbn [bind].
  repeat match goal with |- context [if ?b then _ else _] => destruct b end;
    try reflexivity.
  - apply any_raising_pure. intros a Ha. apply IH. now apply size_get_args.
  - apply all_zip_raising_pure. intros a b _ Hb. apply IH.
    now apply size_get_args.
Qed.

Lemma relaxed_raising_pure (sender receiver : pyobj) :
  relaxed_raising (issubclass subclass) sender receiver =
  Returns (_relaxed_types_are_compatible subclass sender receiver).
Proof.
  revert sender receiver.
  apply (pair_size_ind (fun s r =>
    relaxed_raising (issubclass subclass) s r =
    Returns (_relaxed_types_are_compatible subclass s r))).
  intros s r IH.
  rewrite relaxed_raising_unfold, relaxed_unfold, !try_if_pass_issubclass.
  unfold _relaxed_check_union_compatibility. cbn [bind].
  repeat match goal with |- context [if ?b then _ else _] => destruct b end;
    try reflexivity.
  - apply any_raising_pure. intros a Ha. apply IH.
    apply size_get_args in Ha. lia.
  - apply any_raising_pure. intros b Hb. apply IH.
    apply size_get_args in Hb. lia.
  - apply any_raising_pure. intros a Ha.
    apply any_raising_pure. intros b Hb. apply IH.
    apply size_get_args in Ha, Hb. lia.
  - apply all_zip_raising_pure. intros a b Ha Hb. apply IH.
    apply size_get_args in Ha, Hb. lia.
Qed.

(** C8 — the entry point never raises.  Whatever the subtype oracle does,
    answer or raise, on whatever pair of objects, the call comes back with
    a boolean in every mode, and it is the boolean that comes back when
    the oracle, instead of raising, answers "not a subclass"; with the
    host's [issubclass] that boolean is the one the checkers compute; and
    on a [Union] or a [Literal] as sender [issubclass] raises, the [try]
    takes that for "not a subtype" and the check goes on. *)
Theorem never_raises
    (oracle : pyobj -> pyobj -> outcome bool)
    (sender receiver : pyobj) (type_validation : string) :
  returns (types_are_compatible_raising oracle sender receiver type_validation) /\
  types_are_compatible_raising oracle sender receiver type_validation =
    types_are_compatible_raising (fail_closed oracle) sender receiver type_validation /\
  types_are_compatible_raising (issubclass subclass) sender receiver type_validation =
    Returns (_types_are_compatible subclass sender receiver type_validation) /\
  (is_Union (get_origin sender) || is_Literal (get_origin sender) = true ->
   issubclass subclass sender receiver = TypeError /\
   try_if_pass (issubclass subclass sender receiver) = Returns false /\
   try_issubclass subclass sender receiver = false).
Proof.
  split; [|split; [|split]].
  - unfold types_are_compatible_raising.
    repeat apply returns_if.
    + apply strict_raising_returns.
    + apply relaxed_raising_returns.
    + apply returns_value.
  - unfold types_are_compatible_raising.
    destruct (String.eqb type_validation "strict");
      [apply strict_raising_fail_closed|].
    destruct (String.eqb type_validation "relaxed");
      [apply relaxed_raising_fail_closed|].
    reflexivity.
  - unfold types_are_compatible_raising, _types_are_compatible.
    destruct (String.eqb type_validation "strict"); [apply strict_raising_pure|].
    destruct (String.eqb type_validation "relaxed"); [apply relaxed_raising_pure|].
    reflexivity.
  - intros H. destruct sender; try discriminate; repeat split.
Qed.

End FailClosed.

(** ** The renderer *)

(** Lines 162-181 of the source. *)
Lemma type_name_unfold (type_ : pyobj) :
  _type_name type_ =
  if is_str type_ then ("'" ++ py_name type_ ++ "'")%string
  else with_args (base_name type_) (get_args type_)
         (map _type_name (filter (fun a => negb (is_NoneType a)) (get_args type_))).
Proof.
  assert (rendered : forall l,
    (fix rendered (l : list pyobj) : list string :=
       match l with
       | [] => []
       | a :: l' => if is_NoneType a then rendered l' else _type_name a :: rendered l'
       end) l = map _type_name (filter (fun a => negb (is_NoneType a)) l)).
  { induction l as [|a l IH]; [reflexivity|]. cbn [filter].
    destruct (is_NoneType a); cbn [negb map]; now rewrite IH. }
  destruct type_; cbn [_type_name is_str get_args py_name with_args];
    rewrite ?rendered; reflexivity.
Qed.

(** C9, as the code has it — a [str] constant is rendered as the string
    between single quotes, alone and among the arguments of a [Literal]. *)
Theorem type_name_str_constant (s : string) (rest : list string) :
  _type_name (PStr s) = ("'" ++ s ++ "'")%string /\
  _type_name (PLiteral (map PStr (s :: rest))) =
    ("Literal[" ++
     String.concat ", " (map (fun t => "'" ++ t ++ "'") (s :: rest)) ++ "]")%string.
Proof.
  split; [reflexivity|].
  rewrite type_name_unfold. cbn [is_str get_args].
  change (base_name (PLiteral (map PStr (s :: rest)))) with "Literal".
  assert (quoted : forall l,
    map _type_name (filter (fun a => negb (is_NoneType a)) (map PStr l)) =
    map (fun t => ("'" ++ t ++ "'")%string) l).
  { induction l as [|t l IH]; [reflexivity|].
    cbn [map filter is_NoneType negb]. now rewrite IH. }
  rewrite quoted. reflexivity.
Qed.

(** ** The claims on the builtin classes *)

(** [Union[int, str]] and [Union[str, int]] *)
Lemma reordered_int_str : reordered (PUnion [int_; str_]) (PUnion [str_; int_]).
Proof.
  apply (reordered_union [int_; str_] [int_; str_] [str_; int_]).
  - apply Forall2_reordered_refl.
  - apply perm_swap.
Qed.

(** C1 fails on the strict check: [Union[int, str]] is strictly compatible
    with [Union[int, str, float]], and [Union[str, int]], the same
    alternatives in the other order, is not. *)
Lemma strict_union_order_matters :
  reordered (PUnion [int_; str_]) (PUnion [str_; int_]) /\
  strict (PUnion [int_; str_]) (PUnion [int_; str_; float_]) = true /\
  strict (PUnion [str_; int_]) (PUnion [int_; str_; float_]) = false.
Proof. split; [exact reordered_int_str|split; reflexivity]. Qed.

Lemma union_order_irrelevant_witness :
  relaxed int_ (PUnion [int_; str_]) = relaxed int_ (PUnion [str_; int_]) /\
  (union_free int_ = true ->
   strict int_ (PUnion [int_; str_]) = strict int_ (PUnion [str_; int_])).
Proof.
  apply (union_order_irrelevant builtin_subclass
           int_ int_ (PUnion [int_; str_]) (PUnion [str_; int_])).
  - apply reordered_same.
  - apply (reordered_union [int_; str_] [int_; str_] [str_; int_]).
    + repeat constructor.
    + apply perm_swap.
Defined.

Lemma strict_positional_arguments_witness :
  strict (Mapping [str_; int_]) (Mapping [str_]) = false /\
  strict (Mapping [str_]) (Mapping [str_; int_]) = true /\
  strict (Mapping [str_; int_]) (Mapping [int_; str_]) =
    (2 <=? 2) && all_zip strict [str_; int_] [int_; str_].
Proof.
  split; [|split].
  - apply (proj1 (strict_positional_arguments builtin_subclass
                    (Mapping [str_; int_]) (Mapping [str_]) (OClass "Mapping")));
      try reflexivity.
    cbn. lia.
  - apply (proj1 (proj2 (strict_positional_arguments builtin_subclass
                    (Mapping [str_]) (Mapping [str_; int_]) (OClass "Mapping"))));
      try reflexivity.
    + cbn. lia.
    + intros p [<-|[]]. reflexivity.
  - apply (proj1 (proj2 (proj2 (strict_positional_arguments builtin_subclass
                    (Mapping [str_; int_]) (Mapping [int_; str_]) (OClass "Mapping")))));
      try reflexivity.
    discriminate.
Defined.

(** C3 fails where [Any] comes in: [Any], which is no [Union], is strictly
    compatible with the alternative [Any] of [Union[int, Any]] and not with
    the union; and the [Union] sender [Union[int, str]] is accepted by the
    receiver [Any], which has no origin. *)
Lemma strict_union_receiver_Any :
  is_Union (get_origin PAny) = false /\
  strict PAny (PUnion [int_; PAny]) = false /\
  (exists a, In a [int_; PAny] /\ strict PAny a = true) /\
  get_origin PAny = None /\
  strict (PUnion [int_; str_]) PAny = true.
Proof.
  repeat split. exists PAny. split; [simpl; auto|reflexivity].
Qed.

Lemma strict_union_receiver_witness :
  (strict int_ (PUnion [int_; str_]) = true <->
   exists a, In a [int_; str_] /\ strict int_ a = true) /\
  strict (PUnion [int_; str_]) int_ = false.
Proof.
  destruct (strict_union_receiver builtin_subclass int_ int_ [int_; str_])
    as (H1 & H2 & _).
  split; [apply H1; reflexivity|apply H2; reflexivity].
Defined.

Lemma relaxed_literal_intersection_witness :
  (relaxed (PLiteral [PStr "a"; PStr "b"]) (PLiteral [PStr "b"; PStr "c"]) = true <->
   exists a b, In a [PStr "a"; PStr "b"] /\ In b [PStr "b"; PStr "c"] /\
               py_eq a b = true) /\
  (relaxed (PLiteral [PStr "a"; PStr "b"]) (PLiteral [PStr "b"; PStr "c"]) = true <->
   exists v, In v [PStr "a"; PStr "b"] /\ In v [PStr "b"; PStr "c"]).
Proof.
  destruct (relaxed_literal_intersection builtin_subclass
              [PStr "a"; PStr "b"] [PStr "b"; PStr "c"]) as (H1 & H2 & _).
  split; [apply H1; reflexivity|apply H2; reflexivity].
Defined.

Lemma relaxed_union_partial_witness :
  relaxed (PUnion [int_; str_]) (PUnion [str_; float_]) = true <->
  exists a b, In a [int_; str_] /\ In b [str_; float_] /\ relaxed a b = true.
Proof.
  destruct (relaxed_union_partial builtin_subclass
              (PUnion [int_; str_]) (PUnion [str_; float_]) [] [] "") as [H _].
  apply H; reflexivity.
Defined.

(** C7 fails for the alias without arguments as sender: [List] is strictly
    compatible with [List[int]], which it is not [==] to. *)
Lemma strict_bare_alias_accepted :
  py_eq (List_ []) (List_ [int_]) = false /\
  get_origin (List_ []) = get_origin (List_ [int_]) /\
  get_args (List_ []) = [] /\
  strict (List_ []) (List_ [int_]) = true.
Proof. repeat split. Qed.

Lemma never_raises_witness :
  issubclass builtin_subclass (PUnion [int_; str_]) int_ = TypeError /\
  try_if_pass (issubclass builtin_subclass (PUnion [int_; str_]) int_) = Returns false /\
  try_issubclass builtin_subclass (PUnion [int_; str_]) int_ = false.
Proof.
  apply (never_raises builtin_subclass (fun _ _ => TypeError)
           (PUnion [int_; str_]) int_ "strict").
  reflexivity.
Defined.

(** C9 fails for a constant that is no [str]: the [int] constant [1] of
    [Literal[1, 2]] is rendered as [1], without quotes. *)
Lemma type_name_int_constant_unquoted :
  _type_name (PInt 1) = "1" /\
  _type_name (PInt 1) <> ("'" ++ str_of_int 1 ++ "'")%string /\
  _type_name (PLiteral [PInt 1; PInt 2]) = "Literal[1, 2]".
Proof. repeat split. discriminate. Qed.

(** ** Further properties of the checkers *)

Lemma py_eq_origin (x y : pyobj) :
  py_eq x y = true -> origin_eq (get_origin x) (get_origin y) = true.
Proof.
  destruct x, y; cbn [py_eq get_origin origin_eq origin_eqb]; try congruence.
  intros H. apply andb_prop in H. tauto.
Qed.

Lemma all_zip_mono (f g : pyobj -> pyobj -> bool) (xs ys : list pyobj) :
  (forall a b, In a xs -> In b ys -> f a b = true -> g a b = true) ->
  all_zip f xs ys = true -> all_zip g xs ys = true.
Proof.
  revert ys; induction xs as [|x xs IH]; intros [|y ys] H; try reflexivity.
  rewrite !all_zip_cons, !andb_true_iff. intros [E Z]. split.
  - apply H; simpl; auto.
  - apply IH; [|assumption]. intros; apply H; simpl; auto.
Qed.

Section MoreOnCheckers.

Variable subclass : string -> string -> bool.

Local Abbreviation strict_ := (_strict_types_are_compatible subclass).
Local Abbreviation relaxed_ := (_relaxed_types_are_compatible subclass).
Local Abbreviation compatible_ := (_types_are_compatible subclass).

Lemma py_eq_strict (s r : pyobj) : py_eq s r = true -> strict_ s r = true.
Proof. intros E. now rewrite strict_unfold, E. Qed.

Lemma py_eq_relaxed (s r : pyobj) : py_eq s r = true -> relaxed_ s r = true.
Proof. intros E. rewrite relaxed_unfold, E. now rewrite orb_true_r. Qed.

Lemma origin_not_Any (x : pyobj) : truthy (get_origin x) = true -> is_Any x = false.
Proof. destruct x; cbn; congruence. Qed.

(** X1 — two objects that are [==], and so an object and any reordering of
    its unions, are compatible in every mode and in both directions. *)
Theorem equal_objects_compatible (x y : pyobj) (type_validation : string) :
  py_eq x y = true \/ reordered x y ->
  compatible_ x y type_validation = true /\ compatible_ y x type_validation = true.
Proof.
  intros H.
  assert (E : py_eq x y = true) by (destruct H; auto using reordered_py_eq).
  assert (E' : py_eq y x = true) by now rewrite py_eq_sym.
  unfold _types_are_compatible.
  destruct (String.eqb type_validation "strict"); [auto using py_eq_strict|].
  destruct (String.eqb type_validation "relaxed"); auto using py_eq_relaxed.
Qed.

(** X2 — between two plain classes the strict check is the subclass test
    (or identity), and the relaxed check is the strict check in one of the
    two directions. *)
Theorem classes_nominal (c d : string) :
  _strict_types_are_compatible subclass (PClass c) (PClass d) =
    String.eqb c d || subclass c d /\
  _relaxed_types_are_compatible subclass (PClass c) (PClass d) =
    _strict_types_are_compatible subclass (PClass c) (PClass d)
    || _strict_types_are_compatible subclass (PClass d) (PClass c).
Proof.
  assert (S : forall a b, strict_ (PClass a) (PClass b) = String.eqb a b || subclass a b).
  { intros a b. rewrite strict_unfold. cbn.
    destruct (String.eqb a b), (subclass a b); reflexivity. }
  split; [apply S|]. rewrite !S, relaxed_unfold. cbn.
  rewrite (String.eqb_sym d c).
  destruct (String.eqb c d), (subclass c d), (subclass d c); reflexivity.
Qed.

(** X4 — two objects that are neither [Any], nor a [Union], nor an alias
    without arguments, and whose origins differ: the strict check refuses
    them when the receiver is no plain class (a class against an alias
    with arguments, an alias of [list] against an alias of [Sequence]), the
    relaxed check when neither is a plain class, and both checks when one
    of them is a [Literal] (a [Literal] and the class of its values),
    whatever the class hierarchy says. *)
Theorem different_origins_incompatible (sender receiver : pyobj) :
  is_Any sender = false -> is_Any receiver = false ->
  is_Union (get_origin sender) = false -> is_Union (get_origin receiver) = false ->
  bare_alias sender = false -> bare_alias receiver = false ->
  origin_eq (get_origin sender) (get_origin receiver) = false ->
  (is_class receiver = false ->
   _strict_types_are_compatible subclass sender receiver = false) /\
  (is_class sender = false -> is_class receiver = false ->
   _relaxed_types_are_compatible subclass sender receiver = false) /\
  (is_Literal (get_origin sender) || is_Literal (get_origin receiver) = true ->
   _strict_types_are_compatible subclass sender receiver = false /\
   _relaxed_types_are_compatible subclass sender receiver = false).
Proof.
  intros As Ar Us Ur _ _ O.
  assert (E : py_eq sender receiver = false).
  { destruct (py_eq sender receiver) eqn:E; [|reflexivity].
    apply py_eq_origin in E. congruence. }
  assert (T : try_issubclass subclass sender receiver = false
              /\ try_issubclass subclass receiver sender = false).
  { destruct (get_origin sender) eqn:Os.
    - split; [apply try_issubclass_origin_l|apply try_issubclass_origin_r];
        now rewrite Os.
    - destruct (get_origin receiver) eqn:Or; [|discriminate].
      split; [apply try_issubclass_origin_r|apply try_issubclass_origin_l];
        now rewrite Or. }
  destruct T as [T1 T2].
  assert (S : _strict_types_are_compatible subclass sender receiver = false).
  { rewrite strict_unfold, E, As, Ar, T1, Us, Ur, O.
    cbn [orb negb andb]. now rewrite andb_false_r. }
  assert (R : _relaxed_types_are_compatible subclass sender receiver = false).
  { rewrite relaxed_unfold, E, As, Ar, T1, T2, Us, Ur, O.
    cbn [orb negb andb]. now rewrite andb_false_r. }
  auto.
Qed.

(** X5 — the strict check never accepts a [Union] sender for a receiver
    that is neither [Any] nor a [Union], not even when every alternative of
    the sender would be accepted. *)
Theorem strict_never_narrows_union (alts : list pyobj) (receiver : pyobj) :
  is_Any receiver = false -> is_Union (get_origin receiver) = false ->
  strict_ (PUnion alts) receiver = false.
Proof.
  intros Ar Ur.
  assert (O : origin_eq (Some OUnion) (get_origin receiver) = false).
  { destruct (get_origin receiver) as [[]|]; try reflexivity; discriminate. }
  assert (E : py_eq (PUnion alts) receiver = false).
  { destruct (py_eq (PUnion alts) receiver) eqn:E; [|reflexivity].
    apply py_eq_origin in E. cbn [get_origin] in E. congruence. }
  rewrite strict_unfold, E, Ar.
  rewrite (try_issubclass_origin_l subclass (PUnion alts) receiver) by reflexivity.
  cbn [orb is_Any get_origin is_Union negb andb truthy]. rewrite O.
  now rewrite andb_false_r.
Qed.

(** X6 — a member of a [Union] that is not itself a [Union]: the strict
    check accepts it as sender for the union (unless it is [Any]), and the
    relaxed check accepts the pair in both directions. *)
Theorem union_member_compatible (a : pyobj) (alts : list pyobj) :
  In a alts -> is_Union (get_origin a) = false ->
  (is_Any a = false -> strict_ a (PUnion alts) = true) /\
  relaxed_ a (PUnion alts) = true /\
  relaxed_ (PUnion alts) a = true.
Proof.
  intros Ha Ua. split; [|split].
  - intros Aa. rewrite strict_unfold, Aa, Ua. cbn [is_Any get_origin is_Union negb andb get_args].
    destruct (py_eq a (PUnion alts) || false); [reflexivity|].
    destruct (try_issubclass subclass a (PUnion alts)); [reflexivity|].
    apply existsb_exists. exists a. split; [assumption|]. apply py_eq_strict, py_eq_refl.
  - rewrite relaxed_unfold. unfold _relaxed_check_union_compatibility.
    rewrite Ua. cbn [get_origin is_Union negb andb orb get_args].
    repeat match goal with |- context [if ?b then _ else _] => destruct b end;
      try reflexivity.
    apply existsb_exists. exists a. split; [assumption|]. apply py_eq_relaxed, py_eq_refl.
  - rewrite relaxed_unfold. unfold _relaxed_check_union_compatibility.
    rewrite Ua. cbn [get_origin is_Union negb andb orb get_args].
    repeat match goal with |- context [if ?b then _ else _] => destruct b end;
      try reflexivity.
    apply existsb_exists. exists a. split; [assumption|]. apply py_eq_relaxed, py_eq_refl.
Qed.

(** X7 — two [Union]s that share an alternative are relaxed-compatible. *)
Theorem overlapping_unions_relaxed (a : pyobj) (xs ys : list pyobj) :
  In a xs -> In a ys -> relaxed_ (PUnion xs) (PUnion ys) = true.
Proof.
  intros Hx Hy. rewrite relaxed_unfold. unfold _relaxed_check_union_compatibility.
  cbn [get_origin is_Union negb andb orb get_args].
  repeat match goal with |- context [if ?b then _ else _] => destruct b end;
    try reflexivity.
  apply existsb_exists. exists a. split; [assumption|].
  apply existsb_exists. exists a. split; [assumption|].
  apply py_eq_relaxed, py_eq_refl.
Qed.

End MoreOnCheckers.

Section Generics.

Variable subclass : string -> string -> bool.

Local Abbreviation strict_ := (_strict_types_are_compatible subclass).
Local Abbreviation relaxed_ := (_relaxed_types_are_compatible subclass).

Lemma py_eq_tuple_all_zip (f : pyobj -> pyobj -> bool) (xs ys : list pyobj) :
  (forall a b, py_eq a b = true -> f a b = true) ->
  all_zip py_eq xs ys = true -> all_zip f xs ys = true.
Proof. intros H. apply all_zip_mono. auto. Qed.

(** X8 — the strict check of an alias against an alias with arguments:
    same origin, the sender has no more arguments than the receiver, and
    the arguments are strictly compatible position by position.  The class
    hierarchy is not asked about the origins. *)
Theorem strict_generics (o p : string) (xs ys : list pyobj) (b : pyobj) :
  _strict_types_are_compatible subclass (PGeneric o xs) (PGeneric p (b :: ys)) =
  String.eqb o p && (List.length xs <=? List.length (b :: ys))
  && all_zip (_strict_types_are_compatible subclass) xs (b :: ys).
Proof.
  generalize (b :: ys). clear b ys. intros ys.
  destruct (py_eq (PGeneric o xs) (PGeneric p ys)) eqn:E.
  - rewrite (py_eq_strict subclass _ _ E). symmetry.
    rewrite py_eq_tuple_unfold, !andb_true_iff, Nat.eqb_eq in E.
    destruct E as (-> & L & Z). rewrite L, Nat.leb_refl.
    now rewrite (py_eq_tuple_all_zip strict_ _ _ (py_eq_strict subclass) Z).
  - rewrite strict_unfold, E.
    cbn [is_Any orb get_origin get_args is_Union truthy origin_eq origin_eqb
         negb andb try_issubclass issubclass].
    destruct (String.eqb o p); cbn [negb andb]; [|reflexivity].
    rewrite Nat.ltb_antisym. now destruct (_ <=? _).
Qed.

(** X9 — the relaxed check between two aliases with arguments: same
    origin, the same number of arguments, and the arguments
    relaxed-compatible position by position.  A pair that the strict check
    accepts because the sender has fewer arguments is refused here. *)
Theorem relaxed_generics (o p : string) (xs ys : list pyobj) (a b : pyobj) :
  _relaxed_types_are_compatible subclass (PGeneric o (a :: xs)) (PGeneric p (b :: ys)) =
  String.eqb o p && (List.length (a :: xs) =? List.length (b :: ys))
  && all_zip (_relaxed_types_are_compatible subclass) (a :: xs) (b :: ys).
Proof.
  generalize (a :: xs) (b :: ys). clear a b xs ys. intros xs ys.
  destruct (py_eq (PGeneric o xs) (PGeneric p ys)) eqn:E.
  - rewrite (py_eq_relaxed subclass _ _ E). symmetry.
    rewrite py_eq_tuple_unfold, !andb_true_iff in E.
    destruct E as (-> & -> & Z).
    now rewrite (py_eq_tuple_all_zip relaxed_ _ _ (py_eq_relaxed subclass) Z).
  - rewrite relaxed_unfold, E.
    cbn [is_Any orb get_origin get_args is_Union is_Literal truthy origin_eq
         origin_eqb negb andb try_issubclass issubclass].
    destruct (String.eqb o p); cbn [negb andb]; [|reflexivity].
    now destruct (_ =? _).
Qed.

Lemma strict_constant_receiver (a b : pyobj) :
  is_constant b = true -> strict_ a b = py_eq a b.
Proof.
  intros C. rewrite strict_unfold.
  destruct b; try discriminate; cbn;
    rewrite orb_false_r; destruct (py_eq a _); try reflexivity;
    destruct (is_Any a); try reflexivity;
    destruct a; reflexivity.
Qed.

(** X10 — the strict check between two [Literal]s of constants that are
    not [==] goes by position: it accepts exactly when the values of the
    sender are the first values of the receiver, in the same order.  A
    subset in another order is refused. *)
Theorem strict_literal_prefix (xs ys : list pyobj) :
  forallb is_constant ys = true ->
  py_eq (PLiteral xs) (PLiteral ys) = false ->
  (strict_ (PLiteral xs) (PLiteral ys) = true <-> exists zs, ys = xs ++ zs).
Proof.
  intros C E.
  rewrite (strict_same_origin subclass (PLiteral xs) (PLiteral ys) OLiteral eq_refl eq_refl E).
  cbn [get_args]. clear E. rewrite andb_true_iff, Nat.leb_le.
  revert ys C. induction xs as [|a xs IH]; intros ys C.
  - split; [intros _; now exists ys|]. intros _. split; [cbn; lia|reflexivity].
  - destruct ys as [|b ys].
    + split; [cbn; lia|]. intros [zs H]. discriminate.
    + cbn [forallb] in C. apply andb_prop in C as [Cb C].
      rewrite all_zip_cons, andb_true_iff, (strict_constant_receiver a b Cb).
      cbn [List.length]. split.
      * intros (L & Eab & Z). rewrite py_eq_sym in Eab.
        apply (py_eq_constant _ _ Cb) in Eab. subst b.
        destruct (proj1 (IH ys C)) as [zs ->]; [split; [lia|assumption]|].
        now exists zs.
      * intros [zs H]. injection H as -> ->.
        destruct (proj2 (IH (xs ++ zs) C)) as [L Z]; [now exists zs|].
        repeat split; [lia|apply py_eq_refl|assumption].
Qed.

(** X11 — an alias goes, under the strict check, into the same alias with
    [Any] at every position, and the relaxed check accepts the two in both
    directions. *)
Theorem generic_of_Any (o : string) (xs : list pyobj) :
  strict_ (PGeneric o xs) (PGeneric o (map (fun _ => PAny) xs)) = true /\
  relaxed_ (PGeneric o xs) (PGeneric o (map (fun _ => PAny) xs)) = true /\
  relaxed_ (PGeneric o (map (fun _ => PAny) xs)) (PGeneric o xs) = true.
Proof.
  assert (S : forall l, all_zip strict_ l (map (fun _ => PAny) l) = true).
  { induction l as [|a l IH]; [reflexivity|]. cbn [map].
    rewrite all_zip_cons, IH, strict_unfold. cbn [is_Any].
    now rewrite orb_true_r. }
  assert (R1 : forall l, all_zip relaxed_ l (map (fun _ => PAny) l) = true).
  { induction l as [|a l IH]; [reflexivity|]. cbn [map].
    rewrite all_zip_cons, IH, relaxed_unfold. cbn [is_Any].
    now rewrite orb_true_r. }
  assert (R2 : forall l, all_zip relaxed_ (map (fun _ => PAny) l) l = true).
  { induction l as [|a l IH]; [reflexivity|]. cbn [map].
    now rewrite all_zip_cons, IH, relaxed_unfold. }
  split; [|split].
  - destruct (py_eq (PGeneric o xs) (PGeneric o (map (fun _ => PAny) xs))) eqn:E;
      [now apply py_eq_strict|].
    rewrite (strict_same_origin subclass (PGeneric o xs)
               (PGeneric o (map (fun _ => PAny) xs)) (OClass o) eq_refl eq_refl E).
    cbn [get_args]. now rewrite length_map, Nat.leb_refl, S.
  - destruct (py_eq (PGeneric o xs) (PGeneric o (map (fun _ => PAny) xs))) eqn:E;
      [now apply py_eq_relaxed|].
    rewrite relaxed_unfold, E.
    cbn [is_Any orb get_origin get_args is_Union is_Literal truthy origin_eq
         origin_eqb negb andb try_issubclass issubclass].
    now rewrite String.eqb_refl, length_map, Nat.eqb_refl, R1.
  - destruct (py_eq (PGeneric o (map (fun _ => PAny) xs)) (PGeneric o xs)) eqn:E;
      [now apply py_eq_relaxed|].
    rewrite relaxed_unfold, E.
    cbn [is_Any orb get_origin get_args is_Union is_Literal truthy origin_eq
         origin_eqb negb andb try_issubclass issubclass].
    now rewrite String.eqb_refl, length_map, Nat.eqb_refl, R2.
Qed.

End Generics.

Section Hierarchies.

Variables sub sub' : string -> string -> bool.
Hypothesis more : forall c d, sub c d = true -> sub' c d = true.

Lemma try_issubclass_more (a b : pyobj) :
  try_issubclass sub a b = true -> try_issubclass sub' a b = true.
Proof.
  destruct a, b; cbn; try discriminate. intros H.
  destruct (sub c c0) eqn:E; [|discriminate]. now rewrite (more _ _ E).
Qed.

Lemma existsb_more {A} (f g : A -> bool) (l : list A) :
  (forall a, In a l -> f a = true -> g a = true) ->
  existsb f l = true -> existsb g l = true.
Proof.
  intros H. rewrite !existsb_exists. intros (a & Ha & E). exists a. auto.
Qed.

Lemma strict_more (receiver : pyobj) :
  forall sender,
    _strict_types_are_compatible sub sender receiver = true ->
    _strict_types_are_compatible sub' sender receiver = true.
Proof.
  induction receiver as [r IH] using (well_founded_induction
    (well_founded_ltof _ size)).
  unfold ltof in IH. intros s.
  rewrite (strict_unfold sub s r), (strict_unfold sub' s r).
  destruct (py_eq s r || is_Any r); [reflexivity|].
  destruct (is_Any s); [discriminate|].
  destruct (try_issubclass sub s r) eqn:T.
  - now rewrite (try_issubclass_more _ _ T).
  - destruct (try_issubclass sub' s r); [reflexivity|].
    destruct (negb (is_Union (get_origin s)) && is_Union (get_origin r)).
    + apply existsb_more. intros a Ha. apply IH. now apply size_get_args.
    + destruct (negb _); [discriminate|].
      destruct (_ <? _); [discriminate|].
      apply all_zip_mono. intros a b _ Hb. apply IH. now apply size_get_args.
Qed.

Lemma relaxed_more (sender receiver : pyobj) :
  _relaxed_types_are_compatible sub sender receiver = true ->
  _relaxed_types_are_compatible sub' sender receiver = true.
Proof.
  revert sender receiver.
  apply (pair_size_ind (fun s r =>
    _relaxed_types_are_compatible sub s r = true ->
    _relaxed_types_are_compatible sub' s r = true)).
  intros s r IH.
  rewrite (relaxed_unfold sub s r), (relaxed_unfold sub' s r).
  destruct (is_Any s || is_Any r || py_eq s r); [reflexivity|].
  destruct (try_issubclass sub s r) eqn:T1;
    [now rewrite (try_issubclass_more _ _ T1)|].
  destruct (try_issubclass sub' s r); [reflexivity|].
  destruct (try_issubclass sub r s) eqn:T2;
    [now rewrite (try_issubclass_more _ _ T2)|].
  destruct (try_issubclass sub' r s); [reflexivity|].
  unfold _relaxed_check_union_compatibility.
  destruct (is_Union (get_origin s) || is_Union (get_origin r)).
  - destruct (is_Union (get_origin s) && negb (is_Union (get_origin r)));
      [|destruct (is_Union (get_origin r) && negb (is_Union (get_origin s)))].
    + apply existsb_more. intros a Ha. apply IH. apply size_get_args in Ha. lia.
    + apply existsb_more. intros b Hb. apply IH. apply size_get_args in Hb. lia.
    + apply existsb_more. intros a Ha. apply existsb_more. intros b Hb.
      apply IH. apply size_get_args in Ha, Hb. lia.
  - destruct (negb _); [discriminate|].
    destruct (is_Literal (get_origin s) && is_Literal (get_origin r)); [auto|].
    destruct (negb _); [discriminate|].
    apply all_zip_mono. intros a b Ha Hb. apply IH.
    apply size_get_args in Ha, Hb. lia.
Qed.

End Hierarchies.

(** X3 — declaring more subclasses never breaks a connection: a pair that
    a mode accepts under one class hierarchy is accepted under every
    hierarchy that contains it. *)
Theorem more_subclasses_more_compatible
    (sub sub' : string -> string -> bool)
    (sender receiver : pyobj) (type_validation : string) :
  (forall c d, sub c d = true -> sub' c d = true) ->
  _types_are_compatible sub sender receiver type_validation = true ->
  _types_are_compatible sub' sender receiver type_validation = true.
Proof.
  intros more. unfold _types_are_compatible.
  destruct (String.eqb type_validation "strict"); [now apply strict_more|].
  destruct (String.eqb type_validation "relaxed"); [now apply relaxed_more|].
  reflexivity.
Qed.

(** ** Further properties of the renderer *)

Lemma split_head_no_sep (c : ascii) (name : string) :
  contains c (split_head c name) = false.
Proof.
  induction name as [|d rest IH]; [reflexivity|]. cbn [split_head].
  destruct (Ascii.eqb d c) eqn:E; [reflexivity|]. cbn [contains]. now rewrite E.
Qed.

Lemma substring_all (s : string) : String.substring 0 (String.length s) s = s.
Proof. induction s as [|c s IH]; [reflexivity|]. cbn. now rewrite IH. Qed.

Lemma rendered_filter (l : list pyobj) :
  (fix rendered (l : list pyobj) : list string :=
     match l with
     | [] => []
     | a :: l' => if is_NoneType a then rendered l' else _type_name a :: rendered l'
     end) l = map _type_name (filter (fun a => negb (is_NoneType a)) l).
Proof.
  induction l as [|a l IH]; [reflexivity|]. cbn [filter].
  destruct (is_NoneType a); cbn [negb map]; now rewrite IH.
Qed.

(** X12 — a [Union] of exactly two members, one of them [NoneType], is
    rendered as [Optional[...]] of the other member, wherever [NoneType]
    stands. *)
Theorem type_name_optional (t : pyobj) :
  is_NoneType t = false ->
  _type_name (PUnion [t; NoneType]) = ("Optional[" ++ _type_name t ++ "]")%string /\
  _type_name (PUnion [NoneType; t]) = ("Optional[" ++ _type_name t ++ "]")%string.
Proof.
  intros N. rewrite !type_name_unfold with (type_ := PUnion _).
  cbn [is_str get_args filter is_NoneType NoneType String.eqb Ascii.eqb
       Bool.eqb negb map].
  rewrite N. cbn [negb map with_args String.concat].
  unfold base_name. cbn [py_name get_args existsb List.length Nat.eqb].
  rewrite N. split; reflexivity.
Qed.

(** X13 — every other [Union] is rendered as [Union[...]] of its members
    without [NoneType]: with three members or more, [NoneType] disappears
    from the name and nothing says that the type is optional. *)
Theorem type_name_union (a : pyobj) (args : list pyobj) :
  List.length (a :: args) <> 2 \/ existsb is_NoneType (a :: args) = false ->
  _type_name (PUnion (a :: args)) =
  ("Union[" ++
   String.concat ", "
     (map _type_name (filter (fun x => negb (is_NoneType x)) (a :: args))) ++
   "]")%string.
Proof.
  intros H. rewrite type_name_unfold. cbn [is_str get_args with_args].
  assert (B : base_name (PUnion (a :: args)) = "Union").
  { unfold base_name. cbn [py_name get_args].
    change (String.prefix "typing." "Union") with false.
    change (contains "[" "Union") with false.
    change (String.eqb "Union" "Union") with true. cbn [andb].
    destruct H as [L|N].
    - apply Nat.eqb_neq in L. rewrite L. now rewrite andb_false_r.
    - now rewrite N. }
  now rewrite B.
Qed.

(** X14 — the name of an object without arguments that is not a [str]
    holds no opening bracket: whatever follows a bracket in the name the
    host gives is cut off. *)
Theorem type_name_no_bracket (x : pyobj) :
  is_str x = false -> get_args x = [] ->
  contains "[" (_type_name x) = false.
Proof.
  intros S A. rewrite type_name_unfold, S, A. cbn [with_args].
  unfold base_name. rewrite A. cbn [existsb andb].
  rewrite andb_false_r.
  set (name := if String.prefix "typing." (py_name x)
               then String.substring 7 (String.length (py_name x) - 7) (py_name x)
               else py_name x).
  destruct (contains "[" name) eqn:E; [apply split_head_no_sep|exact E].
Qed.

(** X15 — one qualifier [typing.] in front of the name of a class is
    stripped: the class is rendered as the class without the qualifier. *)
Theorem type_name_strips_typing (n : string) :
  String.prefix "typing." n = false ->
  _type_name (PClass ("typing." ++ n)) = _type_name (PClass n).
Proof.
  intros P. rewrite !type_name_unfold. cbn [is_str get_args with_args].
  unfold base_name. cbn [py_name get_args]. rewrite P.
  assert (Q : String.prefix "typing." ("typing." ++ n) = true)
    by (cbn; destruct n; reflexivity).
  assert (R : String.substring 7 (String.length ("typing." ++ n) - 7) ("typing." ++ n) = n)
    by (cbn; rewrite Nat.sub_0_r; apply substring_all).
  now rewrite Q, R.
Qed.

(** ** The further properties on the builtin classes *)

Lemma equal_objects_compatible_witness :
  _types_are_compatible builtin_subclass
    (PUnion [int_; str_]) (PUnion [str_; int_]) "strict" = true /\
  _types_are_compatible builtin_subclass
    (PUnion [str_; int_]) (PUnion [int_; str_]) "strict" = true.
Proof.
  apply (equal_objects_compatible builtin_subclass
           (PUnion [int_; str_]) (PUnion [str_; int_]) "strict").
  left. reflexivity.
Defined.

Lemma more_subclasses_more_compatible_witness :
  _types_are_compatible builtin_subclass bool_ (PUnion [int_; str_]) "relaxed" = true.
Proof.
  apply (more_subclasses_more_compatible
           (fun c d => String.eqb c "bool" && String.eqb d "int") builtin_subclass
           bool_ (PUnion [int_; str_]) "relaxed").
  - intros c d H. unfold builtin_subclass. rewrite H. now rewrite orb_true_r.
  - reflexivity.
Defined.

Lemma different_origins_incompatible_witness :
  strict (List_ [int_]) (PGeneric "Sequence" [int_]) = false /\
  relaxed (List_ [int_]) (PGeneric "Sequence" [int_]) = false /\
  strict (PLiteral [PStr "a"]) str_ = false /\
  relaxed (PLiteral [PStr "a"]) str_ = false.
Proof.
  destruct (different_origins_incompatible builtin_subclass
              (List_ [int_]) (PGeneric "Sequence" [int_])) as (H1 & H2 & _);
    try reflexivity.
  destruct (different_origins_incompatible builtin_subclass
              (PLiteral [PStr "a"]) str_) as (_ & _ & H3);
    try reflexivity.
  destruct H3 as [H3 H4]; [reflexivity|].
  split; [apply H1; reflexivity|split; [apply H2; reflexivity|split; assumption]].
Defined.

Lemma strict_never_narrows_union_witness :
  strict (PUnion [bool_; int_]) int_ = false.
Proof.
  apply (strict_never_narrows_union builtin_subclass [bool_; int_] int_);
    reflexivity.
Defined.

Lemma union_member_compatible_witness :
  (is_Any int_ = false -> strict int_ (PUnion [int_; NoneType]) = true) /\
  relaxed int_ (PUnion [int_; NoneType]) = true /\
  relaxed (PUnion [int_; NoneType]) int_ = true.
Proof.
  apply (union_member_compatible builtin_subclass int_ [int_; NoneType]).
  - simpl. auto.
  - reflexivity.
Defined.

Lemma overlapping_unions_relaxed_witness :
  relaxed (PUnion [int_; str_]) (PUnion [str_; float_]) = true.
Proof.
  apply (overlapping_unions_relaxed builtin_subclass str_
           [int_; str_] [str_; float_]); simpl; auto.
Defined.

Lemma strict_literal_prefix_witness :
  strict (PLiteral [PStr "a"]) (PLiteral [PStr "a"; PStr "b"]) = true <->
  exists zs, [PStr "a"; PStr "b"] = [PStr "a"] ++ zs.
Proof.
  apply (strict_literal_prefix builtin_subclass [PStr "a"] [PStr "a"; PStr "b"]);
    reflexivity.
Defined.

Lemma type_name_optional_witness :
  _type_name (PUnion [str_; NoneType]) = "Optional[str]" /\
  _type_name (PUnion [NoneType; str_]) = "Optional[str]".
Proof. apply (type_name_optional str_). reflexivity. Defined.

Lemma type_name_union_witness :
  _type_name (PUnion [int_; str_; NoneType]) = "Union[int, str]".
Proof.
  apply (type_name_union int_ [str_; NoneType]). left. cbn. lia.
Defined.

Lemma type_name_no_bracket_witness :
  contains "[" (_type_name (PClass "Foo[T]")) = false.
Proof. apply (type_name_no_bracket (PClass "Foo[T]")); reflexivity. Defined.

Lemma type_name_strips_typing_witness :
  _type_name (PClass "typing.Hashable") = _type_name (PClass "Hashable").
Proof. apply (type_name_strips_typing "Hashable"). reflexivity. Defined.
